(** * VIN decoding service: the cache-aside path of [app/cache.py]

    A shallow embedding of [app/cache.py] and of the lookup handler of
    [app/main.py], and the properties of the cache-aside protocol that the
    specification states about them.

    External collaborators are modelled by what the code observes of them:
    - the provider (reached through [requests.get]) is a function from the
      requested URL to an outcome, given anew at every call ([World]);
    - the SQLAlchemy session over the single table [vins] is a record of the
      rows the open transaction sees, the rows last committed and the objects
      added but not yet flushed; a statement or a commit may be failed by the
      storage engine ([World]);
    - a Parquet file is the table it holds (column names and rows). *)

From Stdlib Require Import String Ascii List Bool Arith ZArith Lia Permutation.
Import ListNotations.
Open Scope string_scope.

#[local] Set Warnings "-register-all".

(** ** Values decoded from JSON ([r.json()]) *)

Inductive json : Type :=
| JNull
| JBool (b : bool)
| JInt (n : Z)
| JFloat (literal : string)
| JStr (s : string)
| JList (items : list json)
| JDict (entries : list (string * json)).

(** A Python dict with string keys, in insertion order; a key occurs once. *)
Fixpoint dict_get {V : Type} (k : string) (d : list (string * V)) : option V :=
  match d with
  | [] => None
  | (k', v) :: rest => if String.eqb k' k then Some v else dict_get k rest
  end.

Definition dict_has {V : Type} (k : string) (d : list (string * V)) : bool :=
  match dict_get k d with Some _ => true | None => false end.

(** ** Exceptions and the monad of the code *)

(** The exception classes the code raises or catches.  pydantic's
    [ValidationError] derives from [ValueError]; sqlite's [IntegrityError]
    and [OperationalError] derive from [SQLAlchemyError]. *)
Inductive exn : Type :=
| KeyError
| IndexError
| TypeError
| ValueError (arg : json)
| ValidationError (errors : list (string * string))
| SQLAlchemyError (msg : string).

Inductive result (A : Type) : Type :=
| Return (a : A)
| Raise (e : exn).
Arguments Return {A} a.
Arguments Raise {A} e.

(** ** Records of the code *)

Module VinCache.
(** A row of table [vins]; [vin] is the primary key. *)
Record t : Type := Build {
  vin : string;
  make : string;
  model : string;
  model_year : string;
  body_class : string;
  cached : bool
}.

Definition to_dict (self : t) : list (string * string) :=
  [ ("vin", vin self);
    ("make", make self);
    ("model", model self);
    ("model_year", model_year self);
    ("body_class", body_class self) ].
End VinCache.

Module VinDecoded.
Record t : Type := Build {
  vin : string;
  make : string;
  model : string;
  model_year : string;
  body_class : string;
  cached : bool
}.
End VinDecoded.

(** [Union[VinDecoded, Error]]. *)
Inductive Response : Type :=
| Decoded (d : VinDecoded.t)
| Error (error : string).

(** A pandas frame, and so the Parquet file written from it. *)
Record DataFrame : Type := {
  columns : list string;
  records : list (list string)
}.

(** ** The state the code acts on *)

(** - [table]: the rows of [vins] as the session's transaction sees them;
    - [committed]: the rows of [vins] as of the last commit;
    - [pending]: the objects added to the session and not yet flushed;
    - [outbound]: the URLs requested from the provider, oldest first;
    - [files]: the files written, by name. *)
Record State : Type := mkState {
  table : list VinCache.t;
  committed : list VinCache.t;
  pending : list VinCache.t;
  outbound : list string;
  files : list (string * DataFrame)
}.

(** What the outside does during one call.  Of [requests.get(url)],
    [r.raise_for_status()] and [r.json()]: a body that parsed, a
    [RequestException] (with its [str]), or another exception.  Of the
    storage engine: whether it fails a statement, or a commit, and with what
    text. *)
Inductive HttpOutcome : Type :=
| Json (body : json)
| RequestException (msg : string)
| OtherException (msg : string).

Record World : Type := mkWorld {
  requests_get : string -> HttpOutcome;
  execute_fault : option string;
  commit_fault : option string
}.

Definition M (A : Type) : Type := State -> result A * State.

Definition ret {A} (a : A) : M A := fun s => (Return a, s).
Definition raise {A} (e : exn) : M A := fun s => (Raise e, s).
Definition lift {A} (r : result A) : M A := fun s => (r, s).

Definition bind {A B} (m : M A) (k : A -> M B) : M B :=
  fun s =>
    match m s with
    | (Return a, s') => k a s'
    | (Raise e, s') => (Raise e, s')
    end.

Notation "x <- m ;; k" := (bind m (fun x => k))
  (at level 61, m at next level, right associativity).
Notation "m ;;; k" := (bind m (fun _ => k))
  (at level 61, right associativity).

(** [try: body  except C as e: handler]; [clause e] is [None] when [e] is not
    an instance of [C], so that it propagates. *)
Definition try_except {A} (body : M A) (clause : exn -> option (M A)) : M A :=
  fun s =>
    match body s with
    | (Return a, s') => (Return a, s')
    | (Raise e, s') =>
        match clause e with
        | Some handler => handler s'
        | None => (Raise e, s')
        end
    end.

(** ** The VIN pattern

    [^[a-zA-Z0-9]{17}$] under [re.match]: seventeen letters or digits, then the
    end of the string, which [$] also accepts before one final newline. *)

Definition is_alnum (c : ascii) : bool :=
  let n := nat_of_ascii c in
  (((48 <=? n) && (n <=? 57)) || ((65 <=? n) && (n <=? 90))
   || ((97 <=? n) && (n <=? 122)))%nat.

Fixpoint alnum_run (n : nat) (s : string) : option string :=
  match n with
  | 0 => Some s
  | S n' =>
      match s with
      | String c rest => if is_alnum c then alnum_run n' rest else None
      | EmptyString => None
      end
  end.

Definition newline : string := String (ascii_of_nat 10) EmptyString.

Definition vin_regex_match (s : string) : bool :=
  match alnum_run 17 s with
  | Some rest => String.eqb rest "" || String.eqb rest newline
  | None => false
  end.

(** ** Python operations on decoded JSON *)

Definition is_substring (needle s : string) : bool :=
  match index 0 needle s with Some _ => true | None => false end.

(** [needle in x] for a string [needle]. *)
Definition py_in (needle : string) (x : json) : result bool :=
  match x with
  | JDict d => Return (dict_has needle d)
  | JList l =>
      Return (existsb (fun v => match v with
                                | JStr s => String.eqb s needle
                                | _ => false
                                end) l)
  | JStr s => Return (is_substring needle s)
  | JNull | JBool _ | JInt _ | JFloat _ => Raise TypeError
  end.

(** [x[k]] for a string [k]: only a dict is indexed by strings. *)
Definition py_getitem (x : json) (k : string) : result json :=
  match x with
  | JDict d =>
      match dict_get k d with
      | Some v => Return v
      | None => Raise KeyError
      end
  | _ => Raise TypeError
  end.

(** [x[0]]; the keys of a decoded JSON object are strings, so a dict has no
    key [0].  (Of a string the code only ever indexes the result by a key,
    which fails whatever the character is.) *)
Definition py_getitem0 (x : json) : result json :=
  match x with
  | JList (v :: _) => Return v
  | JList [] => Raise IndexError
  | JStr (String c _) => Return (JStr (String c EmptyString))
  | JStr EmptyString => Raise IndexError
  | JDict _ => Raise KeyError
  | JNull | JBool _ | JInt _ | JFloat _ => Raise TypeError
  end.

(** ** State accessors *)

Definition set_session (t c p : list VinCache.t) (s : State) : State :=
  mkState t c p (outbound s) (files s).

Definition log_request (target : string) (s : State) : State :=
  mkState (table s) (committed s) (pending s) (outbound s ++ [target])%list
    (files s).

Definition write_file (name : string) (df : DataFrame) (s : State) : State :=
  mkState (table s) (committed s) (pending s) (outbound s)
    ((name, df) :: filter (fun f => negb (String.eqb (fst f) name)) (files s)).

Definition read_file (name : string) (s : State) : option DataFrame :=
  dict_get name (files s).

(** ** The SQLAlchemy session *)

(** The condition [VinCache.vin == vin] on a row. *)
Definition where_vin (vin : string) (r : VinCache.t) : bool :=
  String.eqb (VinCache.vin r) vin.

Definition has_vin (vin : string) (rows : list VinCache.t) : bool :=
  existsb (where_vin vin) rows.

(** [db.query(VinCache).filter_by(vin=vin).first()], when the query returns.
    (The session flushes what is pending before it queries; the properties
    below are about sessions with nothing pending, where that does nothing.
    A query that the engine fails is not modelled: in [cache_check] it
    stands outside every [try], so its exception would leave the call before
    anything else is done; the properties are about calls whose query
    returned, with or without a row.) *)
Definition db_query_first (vin : string) : M (option VinCache.t) :=
  fun s => (Return (find (where_vin vin) (table s)), s).

(** [db.query(VinCache).all()], when the query returns (as for
    [db_query_first]). *)
Definition db_query_all : M (list VinCache.t) :=
  fun s => (Return (table s), s).

(** [db.add(obj)]: the object waits for the next flush. *)
Definition db_add (obj : VinCache.t) : M unit :=
  fun s =>
    (Return tt,
     set_session (table s) (committed s) (pending s ++ [obj])%list s).

(** The INSERTs of a flush, in the order the objects were added; the primary
    key refuses a [vin] that the table already holds. *)
Fixpoint flush (new rows : list VinCache.t) : option (list VinCache.t) :=
  match new with
  | [] => Some rows
  | obj :: rest =>
      if has_vin (VinCache.vin obj) rows then None
      else flush rest (rows ++ [obj])%list
  end.

(** [db.commit()]: flush, then make the transaction's rows the committed
    ones.  The text of the integrity error is the head of sqlite's. *)
Definition db_commit (w : World) : M unit :=
  fun s =>
    match commit_fault w with
    | Some msg => (Raise (SQLAlchemyError msg), s)
    | None =>
        match flush (pending s) (table s) with
        | Some rows => (Return tt, set_session rows rows [] s)
        | None =>
            (Raise
               (SQLAlchemyError
                  "(sqlite3.IntegrityError) UNIQUE constraint failed: vins.vin"),
             s)
        end
    end.

(** [db.rollback()]: back to the committed rows, nothing pending. *)
Definition db_rollback : M unit :=
  fun s => (Return tt, set_session (committed s) (committed s) [] s).

(** [db.execute(delete(VinCache).where(VinCache.vin == vin))]; the value is
    [result.rowcount]. *)
Definition db_execute_delete (w : World) (vin : string) : M nat :=
  fun s =>
    match execute_fault w with
    | Some msg => (Raise (SQLAlchemyError msg), s)
    | None =>
        (Return (length (filter (where_vin vin) (table s))),
         set_session (filter (fun r => negb (where_vin vin r)) (table s))
           (committed s) (pending s) s)
    end.

(** ** pandas and pyarrow *)

(** [pd.DataFrame(data)] for a list of dicts that all have the same keys (as
    those of [to_dict] do): the keys are the columns, each dict a row. *)
Definition pd_DataFrame (data : list (list (string * string))) : DataFrame :=
  {| columns := match data with
                | [] => []
                | d :: _ => map fst d
                end;
     records := map (map snd) data |}.

(** [pq.write_table(pa.Table.from_pandas(df), filename)] *)
Definition pq_write_table (df : DataFrame) (filename : string) : M unit :=
  fun s => (Return tt, write_file filename df s).

Section Cache.

(** Two renderings of Python and pydantic whose text no branch of the code
    inspects: [str(x)] of a JSON value that is not a string, and [str(e)]
    of a pydantic [ValidationError] with the given (field, error type)
    list. *)
Variable py_repr : json -> string.
Variable display_errors : list (string * string) -> string.

(** [str(x)] *)
Definition py_str (x : json) : string :=
  match x with
  | JStr s => s
  | _ => py_repr x
  end.

(** [except ValueError as e], the handler receiving [str(e)]. *)
Definition ValueError_str (e : exn) : option string :=
  match e with
  | ValueError arg => Some (py_str arg)
  | ValidationError errors => Some (display_errors errors)
  | _ => None
  end.

Definition except_ValueError {A} (handler : string -> M A) (e : exn)
  : option (M A) :=
  option_map handler (ValueError_str e).

(** [except SQLAlchemyError as e], the handler receiving [str(e)]. *)
Definition except_SQLAlchemyError {A} (handler : string -> M A) (e : exn)
  : option (M A) :=
  match e with
  | SQLAlchemyError msg => Some (handler msg)
  | _ => None
  end.

(** [except (KeyError, IndexError) as e] *)
Definition except_KeyError_IndexError {A} (handler : M A) (e : exn)
  : option (M A) :=
  match e with
  | KeyError | IndexError => Some handler
  | _ => None
  end.

(** *** pydantic (v1) validation of [VinDecoded]

    A [str] field takes a string as it is and a number or a boolean through
    [str()]; [None] and containers are refused.  [vin] must also match the
    pattern.  The errors of all fields are collected in field order. *)
Definition str_validator (v : json) : string + string :=
  match v with
  | JStr s => inl s
  | JBool _ | JInt _ | JFloat _ => inl (py_str v)
  | JNull => inr "type_error.none.not_allowed"
  | JList _ | JDict _ => inr "type_error.str"
  end.

Definition field_errors (name : string) (r : string + string)
  : list (string * string) :=
  match r with
  | inl _ => []
  | inr code => [(name, code)]
  end.

Definition field_value (r : string + string) : string :=
  match r with
  | inl s => s
  | inr _ => ""
  end.

Definition VinDecoded_init (vin : string)
    (make model model_year body_class : json) (cached : bool)
  : result VinDecoded.t :=
  let make' := str_validator make in
  let model' := str_validator model in
  let model_year' := str_validator model_year in
  let body_class' := str_validator body_class in
  let errors :=
    ((if vin_regex_match vin then [] else [("vin", "value_error.str.regex")])
     ++ field_errors "make" make'
     ++ field_errors "model" model'
     ++ field_errors "model_year" model_year'
     ++ field_errors "body_class" body_class')%list in
  match errors with
  | [] =>
      Return (VinDecoded.Build vin (field_value make') (field_value model')
                (field_value model_year') (field_value body_class') cached)
  | _ :: _ => Raise (ValidationError errors)
  end.

(** *** [app/cache.py] *)

Definition URL : string :=
  "https://vpic.nhtsa.dot.gov/api/vehicles/DecodeVinValues".

Definition get_external_api_with (w : World)
    (vin url format modelyear : string) : M json :=
  fun s =>
    let target :=
      url ++ "/" ++ vin ++ "?format=" ++ format ++ "&modelyear=" ++ modelyear in
    let s' := log_request target s in
    match requests_get w target with
    | Json json_data => (Return json_data, s')
    | RequestException e =>
        (Return (JDict [("error",
                         JStr ("An error occurred during the request: " ++ e))]),
         s')
    | OtherException e =>
        (Return (JDict [("error",
                         JStr ("An unexpected error occurred: " ++ e))]),
         s')
    end.

(** [get_external_api(vin)], with the defaults of the other parameters. *)
Definition get_external_api (w : World) (vin : string) : M json :=
  get_external_api_with w vin URL "json" "".

Definition process_vin (w : World) (vin : string) : M VinDecoded.t :=
  vin_decoded_json <- get_external_api w vin ;;
  has_error <- lift (py_in "error" vin_decoded_json) ;;
  if has_error : bool then
    arg <- lift (py_getitem vin_decoded_json "error") ;;
    raise (ValueError arg)
  else
    try_except
      (results <- lift (py_getitem vin_decoded_json "Results") ;;
       result <- lift (py_getitem0 results) ;;
       make <- lift (py_getitem result "Make") ;;
       model <- lift (py_getitem result "Model") ;;
       model_year <- lift (py_getitem result "ModelYear") ;;
       body_class <- lift (py_getitem result "BodyClass") ;;
       lift (VinDecoded_init vin make model model_year body_class false))
      (except_KeyError_IndexError
         (raise (ValueError (JStr "Invalid VIN data")))).

Definition cache_vin (w : World) (vin : string) (decoded_data : VinDecoded.t)
  : M unit :=
  let vin_cache :=
    VinCache.Build vin
      (VinDecoded.make decoded_data)
      (VinDecoded.model decoded_data)
      (VinDecoded.model_year decoded_data)
      (VinDecoded.body_class decoded_data)
      true in
  try_except
    (db_add vin_cache ;;;
     db_commit w)
    (except_SQLAlchemyError
       (fun _ =>
          db_rollback ;;;
          raise (SQLAlchemyError "Database transaction failed"))).

Definition cache_check (w : World) (vin : string) : M Response :=
  result <- db_query_first vin ;;
  match result with
  | Some result =>
      decoded_data <-
        lift (VinDecoded_init
                (VinCache.vin result)
                (JStr (VinCache.make result))
                (JStr (VinCache.model result))
                (JStr (VinCache.model_year result))
                (JStr (VinCache.body_class result))
                true) ;;
      ret (Decoded decoded_data)
  | None =>
      try_except
        (vin_decoded <- process_vin w vin ;;
         cache_vin w vin vin_decoded ;;;
         ret (Decoded vin_decoded))
        (except_ValueError (fun msg => ret (Error msg)))
  end.

Definition cache_delete_vin (w : World) (vin : string)
  : M (list (string * string)) :=
  try_except
    (rowcount <- db_execute_delete w vin ;;
     db_commit w ;;;
     if Nat.eqb rowcount 0 then
       ret [("message",
             "No record found with VIN: " ++ vin ++ ". No deletion.")]
     else
       ret [("message", "Successfully removed VIN: " ++ vin ++ ".")])
    (except_SQLAlchemyError
       (fun msg =>
          db_rollback ;;;
          ret [("error", "Failed to delete VIN from cache.");
               ("exception", msg)])).

Definition cache_export_database : M string :=
  results <- db_query_all ;;
  let data := map VinCache.to_dict results in
  let df := pd_DataFrame data in
  let filename := "vin_cache.parquet" in
  pq_write_table df filename ;;;
  ret filename.

(** *** [app/main.py]: the handler of [GET /v1/lookup/{vin}] *)

Definition lookup_vin (w : World) (vin : string) : M Response :=
  try_except
    (vin_decoded <- cache_check w vin ;;
     ret vin_decoded)
    (except_ValueError (fun msg => ret (Error msg))).

(** *** Vocabulary of the properties *)

(** The record a lookup of [vin] finds, as [cache_check] reads it. *)
Definition lookup (vin : string) (s : State) : option VinCache.t :=
  find (where_vin vin) (table s).

Definition keys (rows : list VinCache.t) : list string :=
  map VinCache.vin rows.

(** The row [cache_vin] builds. *)
Definition row_of (vin : string) (d : VinDecoded.t) : VinCache.t :=
  VinCache.Build vin (VinDecoded.make d) (VinDecoded.model d)
    (VinDecoded.model_year d) (VinDecoded.body_class d) true.

(** The value [cache_check] builds from a row it found. *)
Definition served (r : VinCache.t) : VinDecoded.t :=
  VinDecoded.Build (VinCache.vin r) (VinCache.make r) (VinCache.model r)
    (VinCache.model_year r) (VinCache.body_class r) true.

(** No transaction is open on the session: nothing added awaits a flush and
    the rows seen are the committed ones. *)
Definition clean (s : State) : Prop :=
  pending s = [] /\ table s = committed s.

(** The process starts on an empty table ([Base.metadata.create_all] on the
    in-memory database). *)
Definition initial : State := mkState [] [] [] [] [].

(** One call of a function of the module, whatever the outside does. *)
Inductive step : State -> State -> Prop :=
| step_cache_check w vin s :
    step s (snd (cache_check w vin s))
| step_lookup_vin w vin s :
    step s (snd (lookup_vin w vin s))
| step_cache_vin w vin decoded_data s :
    step s (snd (cache_vin w vin decoded_data s))
| step_cache_delete_vin w vin s :
    step s (snd (cache_delete_vin w vin s))
| step_cache_export_database s :
    step s (snd (cache_export_database s)).

Inductive reachable : State -> Prop :=
| reachable_initial : reachable initial
| reachable_step s s' : reachable s -> step s s' -> reachable s'.

(** Shapes of a provider answer that [process_vin] reports as invalid data:
    an empty [Results] list, or a first result that is an object without one
    of the four keys. *)
Definition lacks_field (item : list (string * json)) : bool :=
  negb (dict_has "Make" item && dict_has "Model" item
        && dict_has "ModelYear" item && dict_has "BodyClass" item).

Definition invalid_results (d : list (string * json)) : bool :=
  match dict_get "Results" d with
  | Some (JList []) => true
  | Some (JList (JDict item :: _)) => lacks_field item
  | _ => false
  end.

(** What is done with an exception that leaves the [try] of [cache_check]
    (and of [lookup_vin]). *)
Definition on_ValueError (e : exn) (s : State) : result Response * State :=
  match ValueError_str e with
  | Some msg => (Return (Error msg), s)
  | None => (Raise e, s)
  end.

(** The URL [get_external_api(vin)] requests. *)
Definition request_url (vin : string) : string :=
  URL ++ "/" ++ vin ++ "?format=" ++ "json" ++ "&modelyear=" ++ "".

(** A computation that leaves the state as it found it. *)
Definition frames {A} (m : M A) : Prop := forall s, snd (m s) = s.

(** The session and the files of two states agree (the log of requests may
    differ). *)
Definition same_store (s s' : State) : Prop :=
  table s' = table s /\ committed s' = committed s
  /\ pending s' = pending s /\ files s' = files s.

(** What holds of every state the process reaches: no transaction is left
    open, no key is stored twice, every row is marked cached. *)
Definition store_invariant (s : State) : Prop :=
  clean s
  /\ NoDup (keys (table s))
  /\ Forall (fun r => VinCache.cached r = true) (table s).

(** *** Concrete inputs

    The scenario of the tests: VIN [1XPWD40X1ED215307] and a provider that
    answers with one result.  No value in the examples is rendered by
    [str()], so any rendering functions serve there. *)

Definition sample_repr (_ : json) : string := "None".
Definition sample_display (_ : list (string * string)) : string :=
  "1 validation error for VinDecoded".

Definition vin0 : string := "1XPWD40X1ED215307".

Definition answering (body : json) : World :=
  mkWorld (fun _ => Json body) None None.

Definition provider_up : World :=
  answering
    (JDict [("Results",
             JList [JDict [("Make", JStr "MakeValue");
                           ("Model", JStr "ModelValue");
                           ("ModelYear", JStr "2023");
                           ("BodyClass", JStr "BodyClassValue")]])]).

Definition provider_down : World :=
  mkWorld (fun _ => RequestException "connection refused") None None.

Definition storage_down : World :=
  mkWorld (requests_get provider_up) None (Some "disk I/O error").

Definition decoded0 : VinDecoded.t :=
  VinDecoded.Build vin0 "MakeValue" "ModelValue" "2023" "BodyClassValue" false.

Definition other_payload : VinDecoded.t :=
  VinDecoded.Build vin0 "OtherMake" "OtherModel" "1999" "OtherBody" false.

(** The state after the first lookup of [vin0] from [initial]. *)
Definition stored0 : State :=
  mkState [row_of vin0 decoded0] [row_of vin0 decoded0] []
    [request_url vin0] [].

(** *** Vocabulary of the further properties *)

(** Every character is a letter or a digit. *)
Fixpoint all_alnum (s : string) : bool :=
  match s with
  | EmptyString => true
  | String c rest => is_alnum c && all_alnum rest
  end.

Definition is_object (j : json) : bool :=
  match j with
  | JDict _ => true
  | _ => false
  end.

(** Shapes of the ["Results"] entry that [process_vin] reports as invalid
    data besides those of [invalid_results]: no entry at all, an object (it
    has no key [0]), an empty string. *)
Definition unusable_results (d : list (string * json)) : bool :=
  match dict_get "Results" d with
  | None => true
  | Some (JDict _) => true
  | Some (JStr EmptyString) => true
  | _ => false
  end.

(** Shapes of the ["Results"] entry on which an index or a key is taken of a
    value that has none: [null], a boolean, a number, a string that is not
    empty, a list whose first element is not an object. *)
Definition unsubscriptable_results (d : list (string * json)) : bool :=
  match dict_get "Results" d with
  | Some (JNull | JBool _ | JInt _ | JFloat _) => true
  | Some (JStr (String _ _)) => true
  | Some (JList (item :: _)) => negb (is_object item)
  | _ => false
  end.

(** The values of a row in the order of the keys of [to_dict]. *)
Definition row_values (r : VinCache.t) : list string :=
  [VinCache.vin r; VinCache.make r; VinCache.model r;
   VinCache.model_year r; VinCache.body_class r].

(** Every stored key matches the VIN pattern. *)
Definition valid_keys (s : State) : Prop :=
  Forall (fun r => vin_regex_match (VinCache.vin r) = true) (table s).

(** One call of a function that the routes of [app/main.py] reach:
    [cache_vin] is called by [cache_check] only. *)
Inductive served_step : State -> State -> Prop :=
| served_cache_check w vin s :
    served_step s (snd (cache_check w vin s))
| served_lookup_vin w vin s :
    served_step s (snd (lookup_vin w vin s))
| served_cache_delete_vin w vin s :
    served_step s (snd (cache_delete_vin w vin s))
| served_cache_export_database s :
    served_step s (snd (cache_export_database s)).

Inductive served_reachable : State -> Prop :=
| served_initial : served_reachable initial
| served_next s s' :
    served_reachable s -> served_step s s' -> served_reachable s'.

(** *** Rows and keys *)

Lemma find_where_vin vin rows r :
  find (where_vin vin) rows = Some r -> VinCache.vin r = vin /\ In r rows.
Proof.
  intros H. apply find_some in H. destruct H as [Hin Hk].
  unfold where_vin in Hk. apply String.eqb_eq in Hk. auto.
Qed.

Lemma has_vin_keys vin rows :
  has_vin vin rows = true <-> In vin (keys rows).
Proof.
  unfold has_vin, keys. rewrite existsb_exists, in_map_iff.
  split; intros [r [H1 H2]]; exists r.
  - unfold where_vin in H2. apply String.eqb_eq in H2. auto.
  - split; [assumption|]. unfold where_vin. now apply String.eqb_eq.
Qed.

Lemma has_vin_false vin rows :
  has_vin vin rows = false <-> ~ In vin (keys rows).
Proof.
  rewrite <- has_vin_keys. destruct (has_vin vin rows); split; congruence.
Qed.

Lemma find_has_vin vin rows :
  find (where_vin vin) rows = None <-> has_vin vin rows = false.
Proof.
  unfold has_vin. induction rows as [|r rows IH]; simpl.
  - tauto.
  - destruct (where_vin vin r); simpl; [split; discriminate | exact IH].
Qed.

Lemma find_app_miss vin rows more :
  find (where_vin vin) rows = None ->
  find (where_vin vin) (rows ++ more) = find (where_vin vin) more.
Proof.
  induction rows as [|r rows IH]; simpl; [reflexivity|].
  destruct (where_vin vin r); [discriminate | exact IH].
Qed.

Lemma filter_where_vin_miss vin rows :
  has_vin vin rows = false ->
  filter (where_vin vin) rows = []
  /\ filter (fun r => negb (where_vin vin r)) rows = rows.
Proof.
  unfold has_vin. induction rows as [|r rows IH]; simpl; [auto|].
  destruct (where_vin vin r); simpl; [discriminate|].
  intros H. destruct (IH H) as [H1 H2]. now rewrite H1, H2.
Qed.

Lemma filter_where_vin_hit vin rows :
  has_vin vin rows = true -> filter (where_vin vin) rows <> [].
Proof.
  unfold has_vin. induction rows as [|r rows IH]; simpl; [discriminate|].
  destruct (where_vin vin r); simpl; [discriminate | exact IH].
Qed.

Lemma has_vin_after_delete vin rows :
  has_vin vin (filter (fun r => negb (where_vin vin r)) rows) = false.
Proof.
  unfold has_vin. induction rows as [|r rows IH]; simpl; [reflexivity|].
  destruct (where_vin vin r) eqn:E; simpl; [exact IH|].
  now rewrite E.
Qed.

Lemma keys_filter_NoDup (f : VinCache.t -> bool) rows :
  NoDup (keys rows) -> NoDup (keys (filter f rows)).
Proof.
  unfold keys. induction rows as [|r rows IH]; simpl; [auto|].
  intros H. inversion H as [|k ks Hnotin Hnd]; subst.
  destruct (f r); simpl; [constructor|]; auto.
  intros Hin. apply Hnotin.
  apply in_map_iff in Hin. destruct Hin as [x [Hx Hin]].
  apply filter_In in Hin. apply in_map_iff. exists x. tauto.
Qed.

(** A flush that succeeds appended the pending rows, whose keys were new and
    distinct. *)
Lemma flush_Some new : forall rows rows',
  flush new rows = Some rows' ->
  rows' = (rows ++ new)%list
  /\ NoDup (keys new)
  /\ (forall k, In k (keys new) -> has_vin k rows = false).
Proof.
  induction new as [|obj new IH]; simpl; intros rows rows' H.
  - inversion H. rewrite app_nil_r. repeat split; [constructor | tauto].
  - destruct (has_vin (VinCache.vin obj) rows) eqn:E; [discriminate|].
    apply IH in H. destruct H as [-> [Hnd Hnew]].
    assert (Hrows : forall k, In k (keys new) -> has_vin k rows = false).
    { intros k Hk. specialize (Hnew k Hk). apply has_vin_false in Hnew.
      apply has_vin_false. intros Hin. apply Hnew.
      unfold keys. rewrite map_app. apply in_or_app. now left. }
    split; [now rewrite <- app_assoc|]. split.
    + constructor; [|assumption]. intros Hin.
      specialize (Hnew _ Hin). apply has_vin_false in Hnew. apply Hnew.
      unfold keys. rewrite map_app. apply in_or_app. right. simpl. now left.
    + intros k [<-|Hk]; auto.
Qed.

Lemma flush_NoDup new rows rows' :
  NoDup (keys rows) -> flush new rows = Some rows' -> NoDup (keys rows').
Proof.
  intros Hnd H. apply flush_Some in H. destruct H as [-> [Hnew Hfresh]].
  unfold keys. rewrite map_app. apply NoDup_app; try assumption.
  intros k Hk Hin. specialize (Hfresh _ Hin).
  apply has_vin_false in Hfresh. now apply Hfresh.
Qed.

(** *** The monad *)

Lemma bind_Return {A B} (m : M A) (k : A -> M B) s b s' :
  bind m k s = (Return b, s') ->
  exists a s1, m s = (Return a, s1) /\ k a s1 = (Return b, s').
Proof.
  unfold bind. destruct (m s) as [[a|e] s1]; intros H; [eauto|discriminate].
Qed.

Lemma lift_Return {A} (r : result A) s a s' :
  lift r s = (Return a, s') -> r = Return a /\ s' = s.
Proof. unfold lift. intros H. inversion H. auto. Qed.

Lemma frames_ret {A} (a : A) : frames (ret a).
Proof. intros s. reflexivity. Qed.

Lemma frames_raise {A} (e : exn) : frames (@raise A e).
Proof. intros s. reflexivity. Qed.

Lemma frames_lift {A} (r : result A) : frames (lift r).
Proof. intros s. reflexivity. Qed.

Lemma frames_bind {A B} (m : M A) (k : A -> M B) :
  frames m -> (forall a, frames (k a)) -> frames (bind m k).
Proof.
  intros Hm Hk s. unfold bind. specialize (Hm s).
  destruct (m s) as [[a|e] s1]; simpl in *; subst; [apply Hk|reflexivity].
Qed.

Lemma frames_try_except {A} (body : M A) clause :
  frames body ->
  (forall e handler, clause e = Some handler -> frames handler) ->
  frames (try_except body clause).
Proof.
  intros Hb Hc s. unfold try_except. specialize (Hb s).
  destruct (body s) as [[a|e] s1]; simpl in *; subst; [reflexivity|].
  destruct (clause e) as [handler|] eqn:E; [|reflexivity].
  now apply (Hc e).
Qed.

(** *** pydantic *)

Lemma VinDecoded_init_Return vin mk md my bc cd d :
  VinDecoded_init vin mk md my bc cd = Return d ->
  vin_regex_match vin = true
  /\ VinDecoded.vin d = vin /\ VinDecoded.cached d = cd.
Proof.
  unfold VinDecoded_init.
  destruct (vin_regex_match vin); [|discriminate].
  destruct (str_validator mk), (str_validator md),
    (str_validator my), (str_validator bc);
    simpl; try discriminate.
  intros H. inversion H. auto.
Qed.

Lemma VinDecoded_init_served r :
  vin_regex_match (VinCache.vin r) = true ->
  VinDecoded_init (VinCache.vin r) (JStr (VinCache.make r))
    (JStr (VinCache.model r)) (JStr (VinCache.model_year r))
    (JStr (VinCache.body_class r)) true
  = Return (served r).
Proof. intros H. unfold VinDecoded_init. now rewrite H. Qed.

(** *** [get_external_api] and [process_vin] *)

(** One request goes out per call, and the call returns: it never raises. *)
Lemma get_external_api_total w vin s :
  exists vin_decoded_json,
    get_external_api w vin s
    = (Return vin_decoded_json, log_request (request_url vin) s).
Proof.
  unfold get_external_api, get_external_api_with.
  fold (request_url vin).
  destruct (requests_get w (request_url vin)); eauto.
Qed.

Lemma process_vin_state w vin s :
  snd (process_vin w vin s) = log_request (request_url vin) s.
Proof.
  unfold process_vin.
  destruct (get_external_api_total w vin s) as [j Hj].
  unfold bind at 1. rewrite Hj.
  match goal with |- snd (?m _) = _ => enough (H : frames m) by apply H end.
  apply frames_bind; [apply frames_lift|]. intros [|].
  - apply frames_bind; [apply frames_lift|]. intros; apply frames_raise.
  - apply frames_try_except.
    + repeat (apply frames_bind; [apply frames_lift|]; intros).
      apply frames_lift.
    + intros e handler. unfold except_KeyError_IndexError.
      destruct e; intros H; inversion H; apply frames_raise.
Qed.

Lemma process_vin_Return w vin s d s1 :
  process_vin w vin s = (Return d, s1) ->
  vin_regex_match vin = true
  /\ VinDecoded.vin d = vin /\ VinDecoded.cached d = false.
Proof.
  unfold process_vin. intros H.
  apply bind_Return in H. destruct H as [j [s2 [_ H]]].
  apply bind_Return in H. destruct H as [has_error [s3 [_ H]]].
  destruct has_error.
  - apply bind_Return in H. destruct H as [arg [s4 [_ H]]]. discriminate.
  - unfold try_except in H.
    match type of H with
    | (match ?body s3 with _ => _ end) = _ =>
        destruct (body s3) as [[a|e] s4] eqn:Hbody
    end.
    + inversion H; subst.
      repeat (apply bind_Return in Hbody;
              destruct Hbody as [? [? [_ Hbody]]]).
      apply lift_Return in Hbody. destruct Hbody as [Hbody _].
      now apply VinDecoded_init_Return in Hbody.
    + unfold except_KeyError_IndexError in H.
      destruct e; discriminate.
Qed.

(** *** [cache_vin] *)

(** Either the flush of everything pending (the new row last) went through
    and was committed, or the session was rolled back and the fixed error
    raised. *)
Lemma cache_vin_cases w vin d s :
  (exists rows,
      commit_fault w = None
      /\ flush (pending s ++ [row_of vin d]) (table s) = Some rows
      /\ cache_vin w vin d s = (Return tt, set_session rows rows [] s))
  \/ cache_vin w vin d s
     = (Raise (SQLAlchemyError "Database transaction failed"),
        set_session (committed s) (committed s) [] s).
Proof.
  unfold cache_vin, try_except, bind, db_add, db_commit. simpl.
  fold (row_of vin d).
  destruct (commit_fault w) as [msg|]; simpl; [now right|].
  destruct (flush (pending s ++ [row_of vin d]) (table s)) as [rows|] eqn:E;
    simpl; [left; eauto | now right].
Qed.

Lemma cache_vin_Raise w vin d s e s' :
  cache_vin w vin d s = (Raise e, s') ->
  e = SQLAlchemyError "Database transaction failed"
  /\ s' = set_session (committed s) (committed s) [] s.
Proof.
  intros H. destruct (cache_vin_cases w vin d s) as [[rows [_ [_ E]]]|E];
    rewrite E in H; inversion H; auto.
Qed.

(** A row written by [cache_vin] is the one a lookup of its key finds. *)
Lemma cache_vin_Return w vin d s s' :
  lookup vin s = None ->
  cache_vin w vin d s = (Return tt, s') ->
  lookup vin s' = Some (row_of vin d)
  /\ outbound s' = outbound s /\ files s' = files s.
Proof.
  intros Hmiss H.
  destruct (cache_vin_cases w vin d s) as [[rows [_ [Hf E]]]|E];
    rewrite E in H; inversion H; subst; clear H.
  apply flush_Some in Hf. destruct Hf as [-> [Hnd _]].
  unfold lookup in *. simpl. split; [|auto].
  rewrite find_app_miss by assumption.
  unfold keys in Hnd. rewrite map_app in Hnd. simpl in Hnd.
  apply NoDup_remove_2 in Hnd. rewrite app_nil_r in Hnd.
  rewrite find_app_miss.
  - simpl. unfold where_vin. simpl. now rewrite String.eqb_refl.
  - apply find_has_vin. now apply has_vin_false.
Qed.

Lemma clean_rollback s :
  clean s -> set_session (committed s) (committed s) [] s = s.
Proof.
  intros [Hp Ht]. destruct s as [t c p o f]. simpl in *. now subst.
Qed.

(** *** [cache_check] *)

Lemma cache_check_hit w vin s r :
  lookup vin s = Some r ->
  vin_regex_match vin = true ->
  cache_check w vin s = (Return (Decoded (served r)), s).
Proof.
  intros Hfind Hvalid. unfold lookup in Hfind.
  destruct (find_where_vin _ _ _ Hfind) as [Hk _].
  unfold cache_check, bind, db_query_first. rewrite Hfind.
  unfold lift. rewrite VinDecoded_init_served by now rewrite Hk.
  reflexivity.
Qed.

Lemma cache_check_miss w vin s :
  lookup vin s = None ->
  cache_check w vin s =
  match process_vin w vin s with
  | (Return vin_decoded, s1) =>
      match cache_vin w vin vin_decoded s1 with
      | (Return _, s2) => (Return (Decoded vin_decoded), s2)
      | (Raise e, s2) => on_ValueError e s2
      end
  | (Raise e, s1) => on_ValueError e s1
  end.
Proof.
  intros Hmiss. unfold lookup in Hmiss.
  unfold cache_check, db_query_first. unfold bind at 1. rewrite Hmiss.
  unfold try_except, bind, on_ValueError, except_ValueError.
  destruct (process_vin w vin s) as [[d|e] s1].
  - destruct (cache_vin w vin d s1) as [[[]|e] s2]; [reflexivity|].
    destruct (ValueError_str e); reflexivity.
  - destruct (ValueError_str e); reflexivity.
Qed.

Lemma cache_check_state w vin s :
  snd (cache_check w vin s) = s
  \/ snd (cache_check w vin s) = log_request (request_url vin) s
  \/ exists d,
       snd (cache_check w vin s)
       = snd (cache_vin w vin d (log_request (request_url vin) s)).
Proof.
  destruct (lookup vin s) as [r|] eqn:Hl.
  - left. unfold lookup in Hl.
    unfold cache_check, bind, db_query_first. rewrite Hl. unfold lift.
    match goal with |- context [VinDecoded_init ?a ?b ?c ?d ?e ?f] =>
      destruct (VinDecoded_init a b c d e f) end; reflexivity.
  - rewrite (cache_check_miss w vin s Hl).
    pose proof (process_vin_state w vin s) as Hs.
    destruct (process_vin w vin s) as [[d|e] s1]; simpl in Hs; subst s1.
    + right. right. exists d.
      destruct (cache_vin w vin d _) as [[[]|e] s2]; [reflexivity|].
      unfold on_ValueError. destruct (ValueError_str e); reflexivity.
    + right. left.
      unfold on_ValueError. destruct (ValueError_str e); reflexivity.
Qed.

Lemma lookup_vin_unfold w vin s :
  lookup_vin w vin s =
  match cache_check w vin s with
  | (Return vin_decoded, s1) => (Return vin_decoded, s1)
  | (Raise e, s1) => on_ValueError e s1
  end.
Proof.
  unfold lookup_vin, try_except, bind, on_ValueError, except_ValueError.
  destruct (cache_check w vin s) as [[r|e] s1]; [reflexivity|].
  destruct (ValueError_str e); reflexivity.
Qed.

(** *** [cache_delete_vin] *)

Lemma cache_delete_vin_unfold w vin s :
  pending s = [] ->
  cache_delete_vin w vin s =
  let failed := fun msg =>
    (Return [("error", "Failed to delete VIN from cache.");
             ("exception", msg)],
     set_session (committed s) (committed s) [] s) in
  match execute_fault w, commit_fault w with
  | Some msg, _ => failed msg
  | None, Some msg => failed msg
  | None, None =>
      let rows := filter (fun r => negb (where_vin vin r)) (table s) in
      (Return
         (if Nat.eqb (length (filter (where_vin vin) (table s))) 0
          then [("message",
                 "No record found with VIN: " ++ vin ++ ". No deletion.")]
          else [("message", "Successfully removed VIN: " ++ vin ++ ".")]),
       set_session rows rows [] s)
  end.
Proof.
  intros Hp.
  unfold cache_delete_vin, try_except, bind, db_execute_delete, db_commit.
  destruct (execute_fault w) as [m|]; simpl; [reflexivity|].
  destruct (commit_fault w) as [m|]; simpl; [reflexivity|].
  rewrite Hp. simpl.
  destruct (Nat.eqb _ 0); reflexivity.
Qed.

(** *** The invariant of the store *)

Lemma invariant_log_request u s :
  store_invariant s -> store_invariant (log_request u s).
Proof. intros H. exact H. Qed.

Lemma invariant_cache_vin w vin d s :
  store_invariant s -> store_invariant (snd (cache_vin w vin d s)).
Proof.
  intros [Hc [Hnd Hall]].
  destruct (cache_vin_cases w vin d s) as [[rows [_ [Hf E]]]|E]; rewrite E;
    simpl.
  - destruct Hc as [Hp _]. rewrite Hp in Hf.
    repeat split; simpl.
    + exact (flush_NoDup _ _ _ Hnd Hf).
    + apply flush_Some in Hf. destruct Hf as [-> _].
      apply Forall_app. split; [assumption|]. simpl. now constructor.
  - rewrite clean_rollback by assumption. repeat split; auto; apply Hc.
Qed.

Lemma invariant_cache_check w vin s :
  store_invariant s -> store_invariant (snd (cache_check w vin s)).
Proof.
  intros H.
  destruct (cache_check_state w vin s) as [E|[E|[d E]]]; rewrite E.
  - assumption.
  - now apply invariant_log_request.
  - now apply invariant_cache_vin, invariant_log_request.
Qed.

Lemma invariant_cache_delete_vin w vin s :
  store_invariant s -> store_invariant (snd (cache_delete_vin w vin s)).
Proof.
  intros [Hc [Hnd Hall]].
  rewrite cache_delete_vin_unfold by apply Hc.
  assert (Hback : store_invariant
                    (set_session (committed s) (committed s) [] s)).
  { rewrite clean_rollback by assumption. repeat split; auto; apply Hc. }
  cbv zeta.
  destruct (execute_fault w); [exact Hback|].
  destruct (commit_fault w); [exact Hback|].
  repeat split; simpl.
  - now apply keys_filter_NoDup.
  - apply Forall_forall. intros r Hr. apply filter_In in Hr.
    rewrite Forall_forall in Hall. now apply Hall.
Qed.

Lemma step_invariant s s' :
  step s s' -> store_invariant s -> store_invariant s'.
Proof.
  intros Hstep H. destruct Hstep.
  - now apply invariant_cache_check.
  - rewrite lookup_vin_unfold.
    pose proof (invariant_cache_check w vin s H) as H'.
    destruct (cache_check w vin s) as [[r|e] s1]; [exact H'|].
    unfold on_ValueError. destruct (ValueError_str e); exact H'.
  - now apply invariant_cache_vin.
  - now apply invariant_cache_delete_vin.
  - exact H.
Qed.

Lemma reachable_invariant s : reachable s -> store_invariant s.
Proof.
  induction 1 as [|s s' _ IH Hstep].
  - repeat split; simpl; constructor.
  - now apply (step_invariant s s').
Qed.

Lemma cache_check_hit_Return w vin s r d s1 :
  lookup vin s = Some r ->
  cache_check w vin s = (Return (Decoded d), s1) ->
  d = served r /\ s1 = s /\ vin_regex_match vin = true.
Proof.
  intros Hfind H. unfold lookup in Hfind.
  destruct (find_where_vin _ _ _ Hfind) as [Hk _].
  unfold cache_check, bind, db_query_first in H. rewrite Hfind in H.
  unfold lift in H.
  match type of H with context [VinDecoded_init ?a ?b ?c ?d ?e ?f] =>
    destruct (VinDecoded_init a b c d e f) as [d0|e0] eqn:E end;
    [|discriminate].
  inversion H; subst.
  destruct (VinDecoded_init_Return _ _ _ _ _ _ _ E) as [Hv _].
  rewrite (VinDecoded_init_served _ Hv) in E. inversion E.
  repeat split; congruence.
Qed.

(** ** The properties *)

(** C1 (as amended): the store insert is a plain insert under the primary
    key [vin], not an upsert.  No state the process reaches holds two rows
    with the same [vin].  On a session with no open transaction and a key
    that is not stored, inserting a first record succeeds; inserting a
    second record under the same key then fails with
    [SQLAlchemyError("Database transaction failed")] and leaves the store as
    it was, so that a lookup finds exactly one row, whose fields are those
    of the first payload. *)
Theorem cache_vin_first_write_wins :
  (forall s, reachable s -> NoDup (keys (table s)))
  /\ (forall w1 w2 vin d1 d2 s,
        clean s ->
        commit_fault w1 = None ->
        lookup vin s = None ->
        let first := cache_vin w1 vin d1 s in
        let second := cache_vin w2 vin d2 (snd first) in
        fst first = Return tt
        /\ fst second = Raise (SQLAlchemyError "Database transaction failed")
        /\ snd second = snd first
        /\ lookup vin (snd second) = Some (row_of vin d1)
        /\ filter (where_vin vin) (table (snd second)) = [row_of vin d1]).
Proof.
  split; [intros s H; apply (reachable_invariant s H)|].
  intros w1 w2 vin d1 d2 s Hc Hw Hmiss first second.
  assert (Hno : has_vin vin (table s) = false) by now apply find_has_vin.
  assert (Hfirst : first
                   = (Return tt,
                      set_session (table s ++ [row_of vin d1])
                        (table s ++ [row_of vin d1]) [] s)).
  { subst first.
    destruct (cache_vin_cases w1 vin d1 s) as [[rows [_ [Hf E]]]|E].
    - rewrite E. apply flush_Some in Hf. destruct Hf as [-> _].
      destruct Hc as [-> _]. reflexivity.
    - exfalso. revert E.
      unfold cache_vin, try_except, bind, db_add, db_commit. simpl.
      rewrite Hw. destruct Hc as [-> _]. simpl.
      change (VinCache.Build vin _ _ _ _ true) with (row_of vin d1).
      rewrite Hno. discriminate. }
  set (s1 := set_session (table s ++ [row_of vin d1])
               (table s ++ [row_of vin d1]) [] s) in *.
  assert (Hfound : lookup vin s1 = Some (row_of vin d1)).
  { unfold lookup, s1. simpl. rewrite find_app_miss by assumption.
    simpl. unfold where_vin. simpl. now rewrite String.eqb_refl. }
  assert (Hsecond : second
                    = (Raise (SQLAlchemyError "Database transaction failed"),
                       s1)).
  { subst second. rewrite Hfirst. simpl.
    destruct (cache_vin_cases w2 vin d2 s1) as [[rows [_ [Hf E]]]|E].
    - exfalso. apply flush_Some in Hf. destruct Hf as [_ [_ Hfresh]].
      assert (Hin : has_vin vin (table s1) = false).
      { apply Hfresh. unfold s1. simpl. now left. }
      apply find_has_vin in Hin. unfold lookup in Hfound. congruence.
    - rewrite E. reflexivity. }
  rewrite Hsecond, Hfirst. simpl.
  repeat split; try assumption.
  rewrite filter_app.
  destruct (filter_where_vin_miss vin (table s) Hno) as [-> _].
  simpl. unfold where_vin. simpl. now rewrite String.eqb_refl.
Qed.

(** C2: on a session with no open transaction, if a call of [cache_check]
    for [vin] returns a decoded record with [cached = False], a second call
    for [vin], whatever the provider and the storage engine would then do,
    returns a record with the same make, model, model year and body class
    and [cached = True].  (That [vin] is valid follows from the first call's
    success.) *)
Theorem cache_check_twice w1 w2 vin s d s1 :
  clean s ->
  cache_check w1 vin s = (Return (Decoded d), s1) ->
  VinDecoded.cached d = false ->
  exists d',
    cache_check w2 vin s1 = (Return (Decoded d'), s1)
    /\ VinDecoded.make d' = VinDecoded.make d
    /\ VinDecoded.model d' = VinDecoded.model d
    /\ VinDecoded.model_year d' = VinDecoded.model_year d
    /\ VinDecoded.body_class d' = VinDecoded.body_class d
    /\ VinDecoded.cached d' = true.
Proof.
  intros _ H Hfresh.
  destruct (lookup vin s) as [r|] eqn:Hl.
  - destruct (cache_check_hit_Return _ _ _ _ _ _ Hl H) as [-> _].
    discriminate.
  - rewrite (cache_check_miss _ _ _ Hl) in H.
    pose proof (process_vin_state w1 vin s) as Hs.
    destruct (process_vin w1 vin s) as [[dd|e] s'] eqn:Hp.
    + destruct (process_vin_Return _ _ _ _ _ Hp) as [Hvalid _].
      simpl in Hs. subst s'.
      destruct (cache_vin w1 vin dd _) as [[[]|e] s2] eqn:Hc.
      * inversion H; subst.
        apply cache_vin_Return in Hc; [|exact Hl].
        destruct Hc as [Hfound _].
        exists (served (row_of vin d)).
        rewrite (cache_check_hit w2 vin s1 _ Hfound Hvalid).
        repeat split.
      * unfold on_ValueError in H.
        destruct (ValueError_str e); discriminate.
    + unfold on_ValueError in H. destruct (ValueError_str e); discriminate.
Qed.


(** X18: when the answer [get_external_api] returns is an object with no
    ["error"] entry whose ["Results"] entry is an empty list, or a list whose
    first element is an object without one of the keys ["Make"], ["Model"],
    ["ModelYear"], ["BodyClass"], [process_vin] raises [ValueError] with the
    message ["Invalid VIN data"] exactly. *)
Theorem process_vin_invalid_data w vin s d :
  fst (get_external_api w vin s) = Return (JDict d) ->
  dict_has "error" d = false ->
  invalid_results d = true ->
  fst (process_vin w vin s) = Raise (ValueError (JStr "Invalid VIN data"))
  /\ ValueError_str (ValueError (JStr "Invalid VIN data"))
     = Some "Invalid VIN data".
Proof.
  intros Hget Herr Hbad. split; [|reflexivity].
  unfold process_vin. unfold bind at 1.
  destruct (get_external_api w vin s) as [[j|e] s1]; simpl in Hget;
    [|discriminate].
  inversion Hget; subst j. clear Hget.
  unfold bind at 1. simpl. rewrite Herr.
  unfold invalid_results in Hbad.
  unfold try_except, bind, lift. simpl.
  destruct (dict_get "Results" d) as [[| | | | |items|]|]; try discriminate.
  destruct items as [|[| | | | | |item] rest]; try discriminate;
    [reflexivity|].
  simpl. unfold lacks_field, dict_has in Hbad.
  destruct (dict_get "Make" item); [|reflexivity].
  destruct (dict_get "Model" item); [|reflexivity].
  destruct (dict_get "ModelYear" item); [|reflexivity].
  destruct (dict_get "BodyClass" item); [discriminate|reflexivity].
Qed.

(** C5: when the answer [get_external_api] returns is an object whose
    ["error"] entry is the message [msg], [process_vin] raises [ValueError]
    with exactly [msg] as its message. *)
Theorem process_vin_error_entry w vin s d msg :
  fst (get_external_api w vin s) = Return (JDict d) ->
  dict_get "error" d = Some (JStr msg) ->
  fst (process_vin w vin s) = Raise (ValueError (JStr msg))
  /\ ValueError_str (ValueError (JStr msg)) = Some msg.
Proof.
  intros Hget Herr. split; [|reflexivity].
  unfold process_vin. unfold bind at 1.
  destruct (get_external_api w vin s) as [[j|e] s1]; simpl in Hget;
    [|discriminate].
  inversion Hget; subst j. clear Hget.
  unfold bind, lift, raise. simpl. unfold dict_has. rewrite Herr.
  reflexivity.
Qed.

(** C6: on a session with no open transaction, when a valid [vin] is in the
    store, [cache_check] returns the stored record with [cached = True],
    sends no request to the provider and leaves the state as it was; its
    result is the same under any two behaviours of the outside. *)
Theorem cache_check_hit_no_remote w1 w2 vin s r :
  clean s ->
  vin_regex_match vin = true ->
  lookup vin s = Some r ->
  cache_check w1 vin s = (Return (Decoded (served r)), s)
  /\ VinDecoded.cached (served r) = true
  /\ outbound (snd (cache_check w1 vin s)) = outbound s
  /\ cache_check w2 vin s = cache_check w1 vin s.
Proof.
  intros _ Hvalid Hl.
  rewrite (cache_check_hit w1 vin s r Hl Hvalid).
  rewrite (cache_check_hit w2 vin s r Hl Hvalid).
  repeat split.
Qed.

(** C7: on a session with no open transaction, when the lookup misses,
    [process_vin] returns a record and [cache_vin] raises, [cache_check]
    returns nothing: the exception, which is
    [SQLAlchemyError("Database transaction failed")], leaves it and leaves
    [lookup_vin] too; the session has been rolled back, the store is what it
    was. *)
Theorem cache_check_store_write_fails w vin s d s1 e s2 :
  clean s ->
  lookup vin s = None ->
  process_vin w vin s = (Return d, s1) ->
  cache_vin w vin d s1 = (Raise e, s2) ->
  e = SQLAlchemyError "Database transaction failed"
  /\ cache_check w vin s = (Raise e, s2)
  /\ lookup_vin w vin s = (Raise e, s2)
  /\ same_store s s2.
Proof.
  intros Hclean Hl Hp Hc.
  destruct (cache_vin_Raise _ _ _ _ _ _ Hc) as [-> ->].
  pose proof (process_vin_state w vin s) as Hs. rewrite Hp in Hs.
  simpl in Hs. subst s1.
  assert (Hcheck : cache_check w vin s
                   = (Raise (SQLAlchemyError "Database transaction failed"),
                      set_session (committed (log_request (request_url vin) s))
                        (committed (log_request (request_url vin) s)) []
                        (log_request (request_url vin) s))).
  { rewrite (cache_check_miss _ _ _ Hl), Hp, Hc. reflexivity. }
  split; [reflexivity|]. split; [assumption|]. split.
  - rewrite lookup_vin_unfold, Hcheck. reflexivity.
  - destruct Hclean as [Hp0 Ht0]. unfold same_store. simpl.
    rewrite Hp0, Ht0. repeat split.
Qed.

(** C8: on a session with no open transaction, and with no storage fault,
    [cache_delete_vin] returns the message "Successfully removed VIN:
    {vin}." exactly when a row with key [vin] was stored, the message "No
    record found with VIN: {vin}. No deletion." exactly when none was, and
    a lookup of [vin] afterwards finds nothing.  When the statement or the
    commit fails with text [msg], it returns the payload with ["error"] and
    ["exception"] entries, the latter holding [msg], and the state is what
    it was. *)
Theorem cache_delete_vin_outcome w vin s :
  clean s ->
  let out := cache_delete_vin w vin s in
  (execute_fault w = None -> commit_fault w = None ->
     (fst out
      = Return [("message", "Successfully removed VIN: " ++ vin ++ ".")]
      <-> has_vin vin (table s) = true)
     /\ (fst out
         = Return [("message",
                    "No record found with VIN: " ++ vin ++ ". No deletion.")]
         <-> has_vin vin (table s) = false)
     /\ lookup vin (snd out) = None)
  /\ (forall msg,
        execute_fault w = Some msg
        \/ (execute_fault w = None /\ commit_fault w = Some msg) ->
        fst out
        = Return [("error", "Failed to delete VIN from cache.");
                  ("exception", msg)]
        /\ snd out = s).
Proof.
  intros Hc out. subst out.
  rewrite (cache_delete_vin_unfold w vin s (proj1 Hc)).
  rewrite (clean_rollback s Hc).
  cbv zeta. split.
  - intros -> ->. simpl.
    destruct (has_vin vin (table s)) eqn:Hin.
    + pose proof (filter_where_vin_hit vin (table s) Hin) as Hne.
      destruct (filter (where_vin vin) (table s)) as [|x l];
        [congruence|]. simpl.
      repeat split; try discriminate; try reflexivity.
      unfold lookup. simpl. apply find_has_vin, has_vin_after_delete.
    + destruct (filter_where_vin_miss vin (table s) Hin) as [-> Hsame].
      simpl.
      repeat split; try discriminate; try reflexivity.
      unfold lookup. simpl. apply find_has_vin, has_vin_after_delete.
  - intros msg [-> | [-> ->]]; split; reflexivity.
Qed.

(** C9: on a store that holds exactly one record, [cache_export_database]
    returns the file name "vin_cache.parquet" and that file then holds one
    row under the columns vin, make, model, model_year, body_class (the
    columns the claim lists, in the order of [to_dict]); the row's values
    are the record's fields of those names; [cached] is not a column; the
    table is as it was. *)
Theorem cache_export_database_one_record s r :
  table s = [r] ->
  let out := cache_export_database s in
  fst out = Return "vin_cache.parquet"
  /\ (exists df,
        read_file "vin_cache.parquet" (snd out) = Some df
        /\ columns df = ["vin"; "make"; "model"; "model_year"; "body_class"]
        /\ Permutation (columns df)
             ["vin"; "make"; "model_year"; "model"; "body_class"]
        /\ ~ In "cached" (columns df)
        /\ records df
           = [[VinCache.vin r; VinCache.make r; VinCache.model r;
               VinCache.model_year r; VinCache.body_class r]]
        /\ map (combine (columns df)) (records df) = [VinCache.to_dict r])
  /\ table (snd out) = table s.
Proof.
  intros Ht out. subst out.
  unfold cache_export_database, bind, db_query_all, pq_write_table, ret.
  simpl. rewrite Ht. simpl. split; [reflexivity|]. split; [|reflexivity].
  eexists. split; [reflexivity|]. simpl.
  repeat split.
  - apply perm_skip, perm_skip, perm_swap.
  - intros [H|[H|[H|[H|[H|[]]]]]]; discriminate.
Qed.

(** C10: every row of every state the process reaches has [cached = True];
    and when, on a session with no open transaction, a lookup misses and
    [cache_check] returns a decoded record, that record has
    [cached = False] while the row the call stored for [vin] has
    [cached = True]: the two flags differ. *)
Theorem stored_rows_marked_cached :
  (forall s, reachable s ->
             Forall (fun r => VinCache.cached r = true) (table s))
  /\ (forall w vin s d s1,
        clean s ->
        lookup vin s = None ->
        cache_check w vin s = (Return (Decoded d), s1) ->
        VinDecoded.cached d = false
        /\ lookup vin s1 = Some (row_of vin d)
        /\ VinCache.cached (row_of vin d) = true
        /\ VinCache.cached (row_of vin d) <> VinDecoded.cached d).
Proof.
  split; [intros s H; apply (reachable_invariant s H)|].
  intros w vin s d s1 _ Hl H.
  rewrite (cache_check_miss _ _ _ Hl) in H.
  pose proof (process_vin_state w vin s) as Hs.
  destruct (process_vin w vin s) as [[dd|e] s'] eqn:Hp.
  - destruct (process_vin_Return _ _ _ _ _ Hp) as [_ [_ Hfresh]].
    simpl in Hs. subst s'.
    destruct (cache_vin w vin dd _) as [[[]|e] s2] eqn:Hc.
    + inversion H; subst.
      apply cache_vin_Return in Hc; [|exact Hl].
      destruct Hc as [Hfound _].
      repeat split; try assumption. rewrite Hfresh. discriminate.
    + unfold on_ValueError in H. destruct (ValueError_str e); discriminate.
  - unfold on_ValueError in H. destruct (ValueError_str e); discriminate.
Qed.

(** ** Further properties of the code *)

(** *** The VIN pattern *)

Lemma alnum_run_Some n : forall s rest,
  alnum_run n s = Some rest <->
  exists body,
    String.length body = n /\ all_alnum body = true /\ s = body ++ rest.
Proof.
  induction n as [|n IH]; intros s rest; simpl.
  - split.
    + intros H. inversion H. exists "". auto.
    + intros [body [Hlen [_ ->]]].
      destruct body; [reflexivity | discriminate].
  - destruct s as [|c s].
    + split; [discriminate|].
      intros [body [Hlen [_ H]]]. destruct body; discriminate.
    + destruct (is_alnum c) eqn:Hc.
      * rewrite IH. split.
        -- intros [body [Hlen [Hall ->]]]. exists (String c body).
           simpl. rewrite Hc, Hall, Hlen. auto.
        -- intros [body [Hlen [Hall H]]].
           destruct body as [|c' body]; [discriminate|].
           simpl in *. inversion H; subst.
           apply andb_true_iff in Hall. destruct Hall as [_ Hall].
           exists body. auto.
      * split; [discriminate|].
        intros [body [Hlen [Hall H]]].
        destruct body as [|c' body]; [discriminate|].
        simpl in *. inversion H; subst. rewrite Hc in Hall. discriminate.
Qed.

Lemma append_empty_r s : s ++ "" = s.
Proof. induction s as [|c s IH]; simpl; [reflexivity | now rewrite IH]. Qed.

(** X1: the VIN pattern, as [re.match] applies it, accepts exactly the
    strings made of seventeen letters or digits, and those followed by one
    newline. *)
Theorem vin_regex_match_iff s :
  vin_regex_match s = true <->
  exists body,
    String.length body = 17
    /\ all_alnum body = true
    /\ (s = body \/ s = body ++ newline).
Proof.
  unfold vin_regex_match. split.
  - destruct (alnum_run 17 s) as [rest|] eqn:E; [|discriminate].
    apply alnum_run_Some in E. destruct E as [body [Hlen [Hall ->]]].
    intros H. apply orb_true_iff in H. exists body.
    repeat split; try assumption.
    destruct H as [H|H]; apply String.eqb_eq in H; subst.
    + left. apply append_empty_r.
    + now right.
  - intros [body [Hlen [Hall H]]].
    assert (E : exists rest,
               alnum_run 17 s = Some rest /\ (rest = "" \/ rest = newline)).
    { destruct H as [->| ->].
      - exists "". split; [|now left].
        apply alnum_run_Some. exists body.
        rewrite append_empty_r. auto.
      - exists newline. split; [|now right].
        apply alnum_run_Some. exists body. auto. }
    destruct E as [rest [-> [-> | ->]]]; reflexivity.
Qed.

(** *** [process_vin] by the shape of the answer *)

Lemma process_vin_answer w vin s j :
  fst (get_external_api w vin s) = Return j ->
  get_external_api w vin s = (Return j, log_request (request_url vin) s).
Proof.
  intros H. destruct (get_external_api_total w vin s) as [j' E].
  rewrite E in H. simpl in H. inversion H. subst. exact E.
Qed.

Lemma cache_vin_fresh w vin d s :
  clean s ->
  commit_fault w = None ->
  lookup vin s = None ->
  cache_vin w vin d s
  = (Return tt,
     set_session (table s ++ [row_of vin d]) (table s ++ [row_of vin d]) [] s).
Proof.
  intros [Hp _] Hw Hmiss.
  assert (Hno : has_vin vin (table s) = false) by now apply find_has_vin.
  unfold cache_vin, try_except, bind, db_add, db_commit. simpl.
  rewrite Hw, Hp. simpl.
  change (VinCache.Build vin _ _ _ _ true) with (row_of vin d).
  now rewrite Hno.
Qed.

(** X2: on a session with no open transaction and a storage engine that
    does not fail, when [vin] matches the pattern and is not stored and the
    provider's answer is an object without an ["error"] entry whose first
    result is an object with the four keys holding strings, [cache_check]
    sends the one request, returns those four strings under [vin] with
    [cached = False], and appends the row of them to the table, where a
    lookup of [vin] finds it. *)
Theorem cache_check_miss_decodes w vin s d item rest mk md my bc :
  clean s ->
  commit_fault w = None ->
  lookup vin s = None ->
  vin_regex_match vin = true ->
  fst (get_external_api w vin s) = Return (JDict d) ->
  dict_has "error" d = false ->
  dict_get "Results" d = Some (JList (JDict item :: rest)) ->
  dict_get "Make" item = Some (JStr mk) ->
  dict_get "Model" item = Some (JStr md) ->
  dict_get "ModelYear" item = Some (JStr my) ->
  dict_get "BodyClass" item = Some (JStr bc) ->
  let decoded := VinDecoded.Build vin mk md my bc false in
  let out := cache_check w vin s in
  fst out = Return (Decoded decoded)
  /\ table (snd out) = (table s ++ [row_of vin decoded])%list
  /\ lookup vin (snd out) = Some (row_of vin decoded)
  /\ outbound (snd out) = (outbound s ++ [request_url vin])%list
  /\ clean (snd out).
Proof.
  intros Hc Hw Hl Hvalid Hget Herr Hres Hmk Hmd Hmy Hbc decoded out.
  assert (Hp : process_vin w vin s
               = (Return decoded, log_request (request_url vin) s)).
  { unfold process_vin. unfold bind at 1.
    rewrite (process_vin_answer _ _ _ _ Hget).
    unfold bind at 1. simpl. rewrite Herr.
    unfold try_except, bind, lift. simpl. rewrite Hres. simpl.
    rewrite Hmk, Hmd, Hmy, Hbc.
    unfold VinDecoded_init. rewrite Hvalid. reflexivity. }
  subst out. rewrite (cache_check_miss _ _ _ Hl), Hp.
  rewrite (cache_vin_fresh w vin decoded (log_request (request_url vin) s));
    [|exact Hc|exact Hw|exact Hl].
  simpl. repeat split.
  unfold lookup. simpl. unfold lookup in Hl.
  rewrite find_app_miss by assumption.
  simpl. unfold where_vin. simpl. now rewrite String.eqb_refl.
Qed.

Lemma process_vin_not_object w vin s j :
  fst (get_external_api w vin s) = Return j ->
  is_object j = false ->
  fst (process_vin w vin s) = Raise TypeError.
Proof.
  intros Hget Hj.
  unfold process_vin. unfold bind at 1.
  rewrite (process_vin_answer _ _ _ _ Hget).
  destruct j as [| | | | |items|d]; try discriminate; try reflexivity.
  - unfold bind at 1. simpl.
    destruct (is_substring "error" s0); reflexivity.
  - unfold bind at 1. simpl.
    match goal with |- context [existsb ?f items] =>
      destruct (existsb f items) end; reflexivity.
Qed.

Lemma process_vin_unsubscriptable w vin s d :
  fst (get_external_api w vin s) = Return (JDict d) ->
  dict_has "error" d = false ->
  unsubscriptable_results d = true ->
  fst (process_vin w vin s) = Raise TypeError.
Proof.
  intros Hget Herr Hbad.
  unfold process_vin. unfold bind at 1.
  rewrite (process_vin_answer _ _ _ _ Hget).
  unfold bind at 1. simpl. rewrite Herr.
  unfold unsubscriptable_results in Hbad.
  unfold try_except, bind, lift. simpl.
  destruct (dict_get "Results" d) as [[| | | |str|items|]|];
    try discriminate; try reflexivity.
  - destruct str; [discriminate | reflexivity].
  - destruct items as [|[| | | | | |item] rest]; try discriminate;
      reflexivity.
Qed.

(** X3: when the provider's answer is not an object, or is an object
    without an ["error"] entry whose ["Results"] entry is [null], a boolean,
    a number, a non-empty string or a list whose first element is not an
    object, [process_vin] raises [TypeError]; on a miss neither
    [cache_check] nor [lookup_vin] catches it, and only the request has been
    logged. *)
Theorem process_vin_TypeError_escapes w vin s j :
  lookup vin s = None ->
  fst (get_external_api w vin s) = Return j ->
  is_object j = false
  \/ (exists d, j = JDict d /\ dict_has "error" d = false
                /\ unsubscriptable_results d = true) ->
  fst (process_vin w vin s) = Raise TypeError
  /\ cache_check w vin s = (Raise TypeError, log_request (request_url vin) s)
  /\ lookup_vin w vin s = (Raise TypeError, log_request (request_url vin) s).
Proof.
  intros Hl Hget Hshape.
  assert (Hp : fst (process_vin w vin s) = Raise TypeError).
  { destruct Hshape as [Hj | [d [-> [Herr Hbad]]]].
    - now apply (process_vin_not_object w vin s j).
    - now apply (process_vin_unsubscriptable w vin s d). }
  assert (Hc : cache_check w vin s
               = (Raise TypeError, log_request (request_url vin) s)).
  { rewrite (cache_check_miss _ _ _ Hl).
    pose proof (process_vin_state w vin s) as Hs.
    destruct (process_vin w vin s) as [[d|e] s1]; simpl in Hp, Hs;
      [discriminate|].
    inversion Hp; subst. reflexivity. }
  repeat split; try assumption.
  rewrite lookup_vin_unfold, Hc. reflexivity.
Qed.

(** X4: when the provider's answer is an object without an ["error"] entry
    that has no ["Results"] entry, or whose ["Results"] entry is an object or
    the empty string, [process_vin] raises [ValueError] with the message
    ["Invalid VIN data"], and on a miss [cache_check] returns that message
    as an [Error]. *)
Theorem process_vin_unusable_results w vin s d :
  lookup vin s = None ->
  fst (get_external_api w vin s) = Return (JDict d) ->
  dict_has "error" d = false ->
  unusable_results d = true ->
  fst (process_vin w vin s) = Raise (ValueError (JStr "Invalid VIN data"))
  /\ cache_check w vin s
     = (Return (Error "Invalid VIN data"), log_request (request_url vin) s).
Proof.
  intros Hl Hget Herr Hbad.
  assert (Hp : fst (process_vin w vin s)
               = Raise (ValueError (JStr "Invalid VIN data"))).
  { unfold process_vin. unfold bind at 1.
    rewrite (process_vin_answer _ _ _ _ Hget).
    unfold bind at 1. simpl. rewrite Herr.
    unfold unusable_results in Hbad.
    unfold try_except, bind, lift. simpl.
    destruct (dict_get "Results" d) as [[| | | |str| |]|];
      try discriminate; try reflexivity.
    destruct str; [reflexivity | discriminate]. }
  split; [exact Hp|].
  rewrite (cache_check_miss _ _ _ Hl).
  pose proof (process_vin_state w vin s) as Hs.
  destruct (process_vin w vin s) as [[d'|e] s1]; simpl in Hp, Hs;
    [discriminate|].
  inversion Hp; subst. reflexivity.
Qed.

(** X5: when the request to the provider fails, [cache_check] on a miss
    returns an [Error] whose message is the fixed prefix of
    [get_external_api] for that kind of failure followed by the text of the
    exception; only the request has been logged, nothing is stored. *)
Theorem cache_check_transport_failure w vin s :
  lookup vin s = None ->
  (forall msg,
     requests_get w (request_url vin) = RequestException msg ->
     cache_check w vin s
     = (Return (Error ("An error occurred during the request: " ++ msg)),
        log_request (request_url vin) s))
  /\ (forall msg,
        requests_get w (request_url vin) = OtherException msg ->
        cache_check w vin s
        = (Return (Error ("An unexpected error occurred: " ++ msg)),
           log_request (request_url vin) s)).
Proof.
  intros Hl.
  split; intros msg Hreq; rewrite (cache_check_miss _ _ _ Hl);
    unfold process_vin, get_external_api, get_external_api_with;
    fold (request_url vin); unfold bind at 1; rewrite Hreq; reflexivity.
Qed.

(** *** What [cache_check] and [lookup_vin] send, raise and store *)

Lemma cache_check_hit_unfold w vin s r :
  lookup vin s = Some r ->
  cache_check w vin s =
  (match VinDecoded_init (VinCache.vin r) (JStr (VinCache.make r))
           (JStr (VinCache.model r)) (JStr (VinCache.model_year r))
           (JStr (VinCache.body_class r)) true with
   | Return decoded_data => Return (Decoded decoded_data)
   | Raise e => Raise e
   end, s).
Proof.
  intros Hl. unfold lookup in Hl.
  unfold cache_check, bind, db_query_first. rewrite Hl. unfold lift.
  match goal with |- context [VinDecoded_init ?a ?b ?c ?d ?e ?f] =>
    destruct (VinDecoded_init a b c d e f) end; reflexivity.
Qed.

Lemma cache_vin_outbound w vin d s :
  outbound (snd (cache_vin w vin d s)) = outbound s.
Proof.
  destruct (cache_vin_cases w vin d s) as [[rows [_ [_ E]]]|E]; rewrite E;
    reflexivity.
Qed.

(** X6: when the lookup of [cache_check] finds a row, the call sends no
    request; when it finds none, the call sends exactly one request, to the
    URL built from [vin], whatever the provider answers and whether the
    write then succeeds or fails; and [lookup_vin] sends what [cache_check]
    sends. *)
Theorem cache_check_requests w vin s :
  (forall r, lookup vin s = Some r ->
             outbound (snd (cache_check w vin s)) = outbound s)
  /\ (lookup vin s = None ->
      outbound (snd (cache_check w vin s))
      = (outbound s ++ [request_url vin])%list)
  /\ outbound (snd (lookup_vin w vin s))
     = outbound (snd (cache_check w vin s)).
Proof.
  split; [|split].
  - intros r Hl. now rewrite (cache_check_hit_unfold w vin s r Hl).
  - intros Hl. rewrite (cache_check_miss _ _ _ Hl).
    pose proof (process_vin_state w vin s) as Hs.
    destruct (process_vin w vin s) as [[d|e] s1]; simpl in Hs; subst s1.
    + pose proof (cache_vin_outbound w vin d
                    (log_request (request_url vin) s)) as Ho.
      destruct (cache_vin w vin d _) as [[[]|e] s2]; simpl in Ho.
      * exact Ho.
      * unfold on_ValueError. destruct (ValueError_str e); exact Ho.
    + unfold on_ValueError. destruct (ValueError_str e); reflexivity.
  - rewrite lookup_vin_unfold.
    destruct (cache_check w vin s) as [[r|e] s1]; [reflexivity|].
    unfold on_ValueError. destruct (ValueError_str e); reflexivity.
Qed.

Lemma VinDecoded_init_Raise vin mk md my bc cd e :
  VinDecoded_init vin mk md my bc cd = Raise e ->
  exists errors, e = ValidationError errors.
Proof.
  unfold VinDecoded_init.
  match goal with |- match ?l with _ => _ end = _ -> _ =>
    destruct l as [|x l'] end; [discriminate|].
  intros H. inversion H. eauto.
Qed.

Lemma py_getitem_Raise x k e :
  py_getitem x k = Raise e -> e = KeyError \/ e = TypeError.
Proof.
  destruct x; simpl; try (intros H; inversion H; auto; fail).
  destruct (dict_get k entries); intros H; inversion H; auto.
Qed.

Lemma py_getitem0_Raise x e :
  py_getitem0 x = Raise e -> e = IndexError \/ e = KeyError \/ e = TypeError.
Proof.
  destruct x as [| | | |str|items|]; simpl;
    try (intros H; inversion H; auto; fail).
  - destruct str; intros H; inversion H; auto.
  - destruct items; intros H; inversion H; auto.
Qed.

(** The exceptions that can leave [process_vin]. *)
Lemma process_vin_Raise w vin s e s1 :
  process_vin w vin s = (Raise e, s1) ->
  e = TypeError
  \/ (exists arg, e = ValueError arg)
  \/ (exists errors, e = ValidationError errors).
Proof.
  unfold process_vin. unfold bind at 1.
  destruct (get_external_api_total w vin s) as [j ->].
  unfold bind at 1, lift at 1.
  destruct (py_in "error" j) as [[|]|e0] eqn:Hin.
  - unfold bind, lift, raise.
    destruct j; simpl; try (intros H; inversion H; auto; fail).
    simpl in Hin. unfold dict_has in Hin.
    destruct (dict_get "error" entries); [|discriminate].
    intros H; inversion H; eauto.
  - unfold try_except, bind, lift.
    destruct (py_getitem j "Results") as [results|e1] eqn:H1;
      [|apply py_getitem_Raise in H1; destruct H1 as [-> | ->]; simpl;
        intros H; inversion H; eauto].
    destruct (py_getitem0 results) as [result|e2] eqn:H2;
      [|apply py_getitem0_Raise in H2; destruct H2 as [-> | [-> | ->]]; simpl;
        intros H; inversion H; eauto].
    destruct (py_getitem result "Make") as [mk|e3] eqn:H3;
      [|apply py_getitem_Raise in H3; destruct H3 as [-> | ->]; simpl;
        intros H; inversion H; eauto].
    destruct (py_getitem result "Model") as [md|e4] eqn:H4;
      [|apply py_getitem_Raise in H4; destruct H4 as [-> | ->]; simpl;
        intros H; inversion H; eauto].
    destruct (py_getitem result "ModelYear") as [my|e5] eqn:H5;
      [|apply py_getitem_Raise in H5; destruct H5 as [-> | ->]; simpl;
        intros H; inversion H; eauto].
    destruct (py_getitem result "BodyClass") as [bc|e6] eqn:H6;
      [|apply py_getitem_Raise in H6; destruct H6 as [-> | ->]; simpl;
        intros H; inversion H; eauto].
    destruct (VinDecoded_init vin mk md my bc false) as [d|e7] eqn:H7;
      [discriminate|].
    apply VinDecoded_init_Raise in H7. destruct H7 as [errors ->]. simpl.
    intros H. inversion H. eauto.
  - destruct j; simpl in Hin; inversion Hin; subst;
      intros H; inversion H; auto.
Qed.

(** X7: once the lookup of [cache_check] has returned, little can leave
    [lookup_vin].  When the lookup found a row, [lookup_vin] raises nothing:
    it returns a value (an [Error] when pydantic refuses the row) and changes
    nothing.  When it found none, the only exceptions that leave
    [lookup_vin] are [TypeError] and
    [SQLAlchemyError("Database transaction failed")]: every [ValueError],
    pydantic's validation errors among them, has become an [Error] value. *)
Theorem lookup_vin_raises_only w vin s :
  (forall r, lookup vin s = Some r ->
             exists response, lookup_vin w vin s = (Return response, s))
  /\ (lookup vin s = None ->
      forall e s',
        lookup_vin w vin s = (Raise e, s') ->
        e = TypeError \/ e = SQLAlchemyError "Database transaction failed").
Proof.
  split.
  - intros r Hl. rewrite lookup_vin_unfold.
    rewrite (cache_check_hit_unfold w vin s r Hl).
    match goal with |- context [VinDecoded_init ?a ?b ?c ?d ?f ?g] =>
      destruct (VinDecoded_init a b c d f g) as [dd|e0] eqn:E end;
      [simpl; eauto|].
    apply VinDecoded_init_Raise in E. destruct E as [errors ->].
    unfold on_ValueError. simpl. eauto.
  - intros Hl e s'. rewrite lookup_vin_unfold.
    rewrite (cache_check_miss _ _ _ Hl).
    destruct (process_vin w vin s) as [[d|e0] s1] eqn:Hp.
    + destruct (cache_vin w vin d s1) as [[[]|e1] s2] eqn:Hc;
        [discriminate|].
      apply cache_vin_Raise in Hc. destruct Hc as [-> _].
      simpl. intros H. inversion H. auto.
    + apply process_vin_Raise in Hp.
      destruct Hp as [-> | [[arg ->] | [errors ->]]]; simpl.
      * intros H. inversion H. auto.
      * discriminate.
      * discriminate.
Qed.

(** X8: for a [vin] that does not match the pattern, [cache_check] never
    returns a decoded record and never writes: the table, the committed
    rows, the pending objects and the files are what they were. *)
Theorem cache_check_invalid_vin w vin s :
  vin_regex_match vin = false ->
  (forall d, fst (cache_check w vin s) <> Return (Decoded d))
  /\ same_store s (snd (cache_check w vin s)).
Proof.
  intros Hbad.
  destruct (lookup vin s) as [r|] eqn:Hl.
  - rewrite (cache_check_hit_unfold w vin s r Hl).
    unfold lookup in Hl. destruct (find_where_vin _ _ _ Hl) as [Hk _].
    match goal with |- context [VinDecoded_init ?a ?b ?c ?d ?f ?g] =>
      destruct (VinDecoded_init a b c d f g) as [dd|e0] eqn:E end.
    + apply VinDecoded_init_Return in E. destruct E as [E _].
      rewrite Hk in E. congruence.
    + simpl. split; [discriminate | repeat split].
  - rewrite (cache_check_miss _ _ _ Hl).
    pose proof (process_vin_state w vin s) as Hs.
    destruct (process_vin w vin s) as [[d|e0] s1] eqn:Hp.
    + apply process_vin_Return in Hp. destruct Hp as [Hp _]. congruence.
    + simpl in Hs. subst s1. unfold on_ValueError.
      destruct (ValueError_str e0); simpl;
        (split; [discriminate | repeat split]).
Qed.

(** *** What the routes can store *)

Lemma served_reachable_reachable s : served_reachable s -> reachable s.
Proof.
  induction 1 as [|s s' _ IH Hstep]; [constructor|].
  apply (reachable_step s s' IH). destruct Hstep; constructor.
Qed.

Lemma valid_keys_cache_check w vin s :
  clean s -> valid_keys s -> valid_keys (snd (cache_check w vin s)).
Proof.
  intros Hc Hv. unfold valid_keys in *.
  destruct (lookup vin s) as [r|] eqn:Hl.
  - now rewrite (cache_check_hit_unfold w vin s r Hl).
  - rewrite (cache_check_miss _ _ _ Hl).
    pose proof (process_vin_state w vin s) as Hs.
    destruct (process_vin w vin s) as [[d|e] s1] eqn:Hp.
    + apply process_vin_Return in Hp. destruct Hp as [Hvalid _].
      simpl in Hs. subst s1.
      assert (Hafter : Forall
                (fun r => vin_regex_match (VinCache.vin r) = true)
                (table (snd (cache_vin w vin d
                               (log_request (request_url vin) s))))).
      { destruct (cache_vin_cases w vin d (log_request (request_url vin) s))
          as [[rows [_ [Hf E]]]|E]; rewrite E; simpl.
        - apply flush_Some in Hf. destruct Hf as [-> _]. simpl.
          destruct Hc as [-> _]. simpl.
          apply Forall_app. split; [assumption|]. now constructor.
        - destruct Hc as [_ <-]. assumption. }
      destruct (cache_vin w vin d _) as [[[]|e] s2]; [exact Hafter|].
      unfold on_ValueError. destruct (ValueError_str e); exact Hafter.
    + simpl in Hs. subst s1.
      unfold on_ValueError. destruct (ValueError_str e); exact Hv.
Qed.

Lemma served_reachable_valid_keys s : served_reachable s -> valid_keys s.
Proof.
  induction 1 as [|s s' Hr IH Hstep]; [constructor|].
  pose proof (reachable_invariant s (served_reachable_reachable s Hr))
    as [Hc _].
  destruct Hstep.
  - now apply valid_keys_cache_check.
  - rewrite lookup_vin_unfold.
    pose proof (valid_keys_cache_check w vin s Hc IH) as H'.
    destruct (cache_check w vin s) as [[r|e] s1]; [exact H'|].
    unfold on_ValueError. destruct (ValueError_str e); exact H'.
  - rewrite cache_delete_vin_unfold by apply Hc.
    rewrite (clean_rollback s Hc). cbv zeta.
    destruct (execute_fault w); [exact IH|].
    destruct (commit_fault w); [exact IH|].
    unfold valid_keys in *. simpl.
    apply Forall_forall. intros r Hr'. apply filter_In in Hr'.
    rewrite Forall_forall in IH. now apply IH.
  - exact IH.
Qed.

(** X9: in every state reached from the empty table by calls of
    [cache_check], [lookup_vin], [cache_delete_vin] and
    [cache_export_database], every stored key matches the VIN pattern; so a
    lookup of a stored key is always served: [cache_check] returns the stored
    record with [cached = True] and changes nothing. *)
Theorem served_store_is_served s :
  served_reachable s ->
  valid_keys s
  /\ (forall w vin r,
        lookup vin s = Some r ->
        cache_check w vin s = (Return (Decoded (served r)), s)).
Proof.
  intros Hr. pose proof (served_reachable_valid_keys s Hr) as Hv.
  split; [exact Hv|].
  intros w vin r Hl. apply cache_check_hit; [exact Hl|].
  unfold lookup in Hl. destruct (find_where_vin _ _ _ Hl) as [<- Hin].
  unfold valid_keys in Hv. rewrite Forall_forall in Hv. now apply Hv.
Qed.

(** *** Rows that are not touched *)

Lemma find_app_hit {A} (f : A -> bool) rows more r :
  find f rows = Some r -> find f (rows ++ more) = Some r.
Proof.
  induction rows as [|x rows IH]; simpl; [discriminate|].
  destruct (f x); auto.
Qed.

Lemma where_vin_other vin vin' r :
  VinCache.vin r = vin -> vin' <> vin -> where_vin vin' r = false.
Proof.
  intros <- Hne. unfold where_vin. apply String.eqb_neq. congruence.
Qed.

(** After [cache_vin] on a session with no open transaction, a row that was
    found is found, and no other key's lookup has changed. *)
Lemma lookup_after_cache_vin w vin d s :
  clean s ->
  (forall v r, lookup v s = Some r ->
               lookup v (snd (cache_vin w vin d s)) = Some r)
  /\ (forall v, v <> vin ->
                lookup v (snd (cache_vin w vin d s)) = lookup v s).
Proof.
  intros Hc.
  destruct (cache_vin_cases w vin d s) as [[rows [_ [Hf E]]]|E]; rewrite E.
  - apply flush_Some in Hf. destruct Hf as [-> _].
    destruct Hc as [-> _]. unfold lookup. simpl. split.
    + intros v r. apply find_app_hit.
    + intros v Hne. destruct (find (where_vin v) (table s)) as [r|] eqn:Hv.
      * now apply find_app_hit.
      * rewrite find_app_miss by assumption. simpl.
        now rewrite (where_vin_other vin v (row_of vin d)).
  - simpl. rewrite (clean_rollback s Hc). auto.
Qed.

(** X10: on a session with no open transaction, a call of [cache_check]
    for [vin] never replaces or removes a stored row (a row found before is
    found after, under [vin] too, whatever the provider answers now) and
    changes the lookup of no key other than [vin]. *)
Theorem cache_check_keeps_rows w vin s :
  clean s ->
  let s' := snd (cache_check w vin s) in
  (forall v r, lookup v s = Some r -> lookup v s' = Some r)
  /\ (forall v, v <> vin -> lookup v s' = lookup v s).
Proof.
  intros Hc s'. subst s'.
  destruct (cache_check_state w vin s) as [E|[E|[d E]]]; rewrite E.
  - auto.
  - auto.
  - apply (lookup_after_cache_vin w vin d (log_request (request_url vin) s)).
    exact Hc.
Qed.

(** X11: on a session with no open transaction, [cache_vin] for [vin]
    never replaces or removes a stored row and changes the lookup of no key
    other than [vin], whether it succeeds or raises. *)
Theorem cache_vin_keeps_rows w vin d s :
  clean s ->
  let s' := snd (cache_vin w vin d s) in
  (forall v r, lookup v s = Some r -> lookup v s' = Some r)
  /\ (forall v, v <> vin -> lookup v s' = lookup v s).
Proof.
  intros Hc s'. subst s'. now apply lookup_after_cache_vin.
Qed.

(** *** [cache_delete_vin] with [cache_vin] and with itself *)

Lemma filter_not_where_vin_fresh vin row rows :
  has_vin vin rows = false ->
  VinCache.vin row = vin ->
  filter (fun r => negb (where_vin vin r)) (rows ++ [row]) = rows.
Proof.
  intros Hno Hk. rewrite filter_app.
  destruct (filter_where_vin_miss vin rows Hno) as [_ ->].
  simpl. unfold where_vin. rewrite Hk, String.eqb_refl. simpl.
  apply app_nil_r.
Qed.

Lemma clean_state_eq s rows :
  clean s -> rows = table s -> set_session rows rows [] s = s.
Proof.
  intros [Hp Ht] ->. destruct s as [t c p o f]. simpl in *. now subst.
Qed.

(** X12: on a session with no open transaction and with no storage fault,
    deleting a key right after it was inserted reports the removal and
    gives back the state from before the insert. *)
Theorem cache_vin_then_delete w1 w2 vin d s :
  clean s ->
  lookup vin s = None ->
  commit_fault w1 = None ->
  execute_fault w2 = None ->
  commit_fault w2 = None ->
  cache_delete_vin w2 vin (snd (cache_vin w1 vin d s))
  = (Return [("message", "Successfully removed VIN: " ++ vin ++ ".")], s).
Proof.
  intros Hc Hl Hw1 He2 Hw2.
  assert (Hno : has_vin vin (table s) = false) by now apply find_has_vin.
  rewrite (cache_vin_fresh w1 vin d s Hc Hw1 Hl). simpl.
  rewrite cache_delete_vin_unfold by reflexivity.
  rewrite He2, Hw2. cbv zeta. simpl.
  rewrite (filter_not_where_vin_fresh vin (row_of vin d) (table s) Hno)
    by reflexivity.
  rewrite filter_app.
  destruct (filter_where_vin_miss vin (table s) Hno) as [-> _].
  simpl. unfold where_vin at 1. simpl. rewrite String.eqb_refl. simpl.
  f_equal. destruct Hc as [Hp Ht].
  destruct s as [t c p o f]. simpl in *. now subst.
Qed.

(** X13: on a session with no open transaction and with no storage fault,
    a second deletion of the same key reports that no record was found and
    leaves the state as the first deletion left it. *)
Theorem cache_delete_vin_twice w1 w2 vin s :
  clean s ->
  execute_fault w1 = None -> commit_fault w1 = None ->
  execute_fault w2 = None -> commit_fault w2 = None ->
  let s1 := snd (cache_delete_vin w1 vin s) in
  cache_delete_vin w2 vin s1
  = (Return [("message",
              "No record found with VIN: " ++ vin ++ ". No deletion.")],
     s1).
Proof.
  intros Hc He1 Hw1 He2 Hw2 s1. subst s1.
  rewrite (cache_delete_vin_unfold w1 vin s (proj1 Hc)).
  rewrite He1, Hw1. cbv zeta. simpl.
  rewrite cache_delete_vin_unfold by reflexivity.
  rewrite He2, Hw2. cbv zeta. simpl.
  pose proof (has_vin_after_delete vin (table s)) as Hno.
  destruct (filter_where_vin_miss vin _ Hno) as [-> ->].
  reflexivity.
Qed.

Lemma find_filter_other vin v rows :
  v <> vin ->
  find (where_vin v) (filter (fun r => negb (where_vin vin r)) rows)
  = find (where_vin v) rows.
Proof.
  intros Hne. induction rows as [|r rows IH]; simpl; [reflexivity|].
  destruct (where_vin vin r) eqn:E; simpl.
  - unfold where_vin in E. apply String.eqb_eq in E.
    now rewrite (where_vin_other vin v r E Hne).
  - now rewrite IH.
Qed.

(** X14: on a session with no open transaction, [cache_delete_vin] for
    [vin] changes the lookup of no other key, whether the storage engine
    fails or not, and never touches the files or sends a request. *)
Theorem cache_delete_vin_keeps_others w vin s :
  clean s ->
  let s' := snd (cache_delete_vin w vin s) in
  (forall v, v <> vin -> lookup v s' = lookup v s)
  /\ files s' = files s
  /\ outbound s' = outbound s.
Proof.
  intros Hc s'. subst s'.
  rewrite (cache_delete_vin_unfold w vin s (proj1 Hc)).
  rewrite (clean_rollback s Hc). cbv zeta.
  destruct (execute_fault w); [auto|].
  destruct (commit_fault w); [auto|].
  simpl. repeat split.
  intros v Hne. unfold lookup. simpl. now apply find_filter_other.
Qed.

(** *** [cache_export_database] on any table *)

Lemma dict_get_write_other {V} name name' (v : V) entries :
  name' <> name ->
  dict_get name'
    ((name, v) :: filter (fun f => negb (String.eqb (fst f) name)) entries)
  = dict_get name' entries.
Proof.
  intros Hne. simpl.
  assert (E : String.eqb name name' = false)
    by (apply String.eqb_neq; congruence).
  rewrite E. clear E.
  induction entries as [|[k x] entries IH]; simpl; [reflexivity|].
  destruct (String.eqb k name) eqn:Ek; simpl.
  - apply String.eqb_eq in Ek. subst k.
    assert (E : String.eqb name name' = false)
      by (apply String.eqb_neq; congruence).
    now rewrite E.
  - now rewrite IH.
Qed.

Lemma filter_twice {A} (f : A -> bool) l :
  filter f (filter f l) = filter f l.
Proof.
  induction l as [|x l IH]; simpl; [reflexivity|].
  destruct (f x) eqn:E; simpl; [rewrite E|]; now rewrite IH.
Qed.

(** X15: on a table that is not empty, [cache_export_database] returns
    "vin_cache.parquet" and that file then holds, under the five columns of
    [to_dict], one record per stored row, in the order of the table, with that
    row's values; no other file, no row and no request log entry is changed;
    and exporting again changes nothing. *)
Theorem cache_export_database_all_rows s :
  table s <> [] ->
  let out := cache_export_database s in
  fst out = Return "vin_cache.parquet"
  /\ read_file "vin_cache.parquet" (snd out)
     = Some {| columns := ["vin"; "make"; "model"; "model_year"; "body_class"];
               records := map row_values (table s) |}
  /\ (forall name, name <> "vin_cache.parquet" ->
                   read_file name (snd out) = read_file name s)
  /\ table (snd out) = table s
  /\ committed (snd out) = committed s
  /\ pending (snd out) = pending s
  /\ outbound (snd out) = outbound s
  /\ snd (cache_export_database (snd out)) = snd out.
Proof.
  intros Hne out. subst out.
  unfold cache_export_database, bind, db_query_all, pq_write_table, ret.
  simpl. split; [reflexivity|]. split; [|split].
  - unfold read_file, write_file. simpl. f_equal.
    unfold pd_DataFrame. rewrite map_map.
    destruct (table s) as [|r rows]; [congruence|]. reflexivity.
  - intros name Hname. unfold read_file, write_file. simpl files.
    now apply dict_get_write_other.
  - repeat split. unfold write_file. simpl.
    now rewrite filter_twice.
Qed.

(** *** What a result of [cache_check] tells *)

(** X16: a decoded record that [cache_check] returns is for the [vin] asked
    for, which matches the pattern; its [cached] flag is [True] exactly when
    [vin] was stored before the call, and then the call changed nothing. *)
Theorem cache_check_Decoded w vin s d s' :
  cache_check w vin s = (Return (Decoded d), s') ->
  VinDecoded.vin d = vin
  /\ vin_regex_match vin = true
  /\ (VinDecoded.cached d = true <-> exists r, lookup vin s = Some r)
  /\ (VinDecoded.cached d = true -> s' = s).
Proof.
  intros H.
  destruct (lookup vin s) as [r|] eqn:Hl.
  - destruct (cache_check_hit_Return _ _ _ _ _ _ Hl H) as [-> [-> Hv]].
    unfold lookup in Hl. destruct (find_where_vin _ _ _ Hl) as [Hk _].
    simpl. repeat split; eauto.
  - rewrite (cache_check_miss _ _ _ Hl) in H.
    destruct (process_vin w vin s) as [[dd|e] s1] eqn:Hp.
    + apply process_vin_Return in Hp. destruct Hp as [Hv [Hk Hfresh]].
      destruct (cache_vin w vin dd s1) as [[[]|e] s2].
      * inversion H; subst. rewrite Hfresh.
        repeat split; try assumption; try discriminate.
        intros [r Hr]. discriminate.
      * unfold on_ValueError in H. destruct (ValueError_str e); discriminate.
    + unfold on_ValueError in H. destruct (ValueError_str e); discriminate.
Qed.

Lemma cache_check_Error_state w vin s msg s' :
  cache_check w vin s = (Return (Error msg), s') -> same_store s s'.
Proof.
  intros H.
  destruct (lookup vin s) as [r|] eqn:Hl.
  - rewrite (cache_check_hit_unfold w vin s r Hl) in H.
    inversion H. repeat split.
  - rewrite (cache_check_miss _ _ _ Hl) in H.
    pose proof (process_vin_state w vin s) as Hs.
    destruct (process_vin w vin s) as [[dd|e] s1] eqn:Hp; simpl in Hs;
      subst s1.
    + destruct (cache_vin w vin dd _) as [[[]|e] s2] eqn:Hc;
        [discriminate|].
      apply cache_vin_Raise in Hc. destruct Hc as [-> _]. discriminate.
    + unfold on_ValueError in H.
      destruct (ValueError_str e); inversion H. repeat split.
Qed.

(** X17: whenever [cache_check] or [lookup_vin] answers with an [Error]
    value, nothing has been written: the table, the committed rows, the
    pending objects and the files are what they were. *)
Theorem Error_means_nothing_written w vin s msg s' :
  cache_check w vin s = (Return (Error msg), s')
  \/ lookup_vin w vin s = (Return (Error msg), s') ->
  same_store s s'.
Proof.
  intros [H|H]; [now apply (cache_check_Error_state w vin s msg)|].
  rewrite lookup_vin_unfold in H.
  destruct (cache_check w vin s) as [[[d|m]|e] s1] eqn:Hc.
  - discriminate.
  - inversion H; subst. now apply (cache_check_Error_state w vin s msg).
  - unfold on_ValueError in H.
    destruct (ValueError_str e) eqn:Hv; [|discriminate].
    inversion H; subst. clear H.
    destruct (lookup vin s) as [r|] eqn:Hl.
    + rewrite (cache_check_hit_unfold w vin s r Hl) in Hc.
      inversion Hc. repeat split.
    + rewrite (cache_check_miss _ _ _ Hl) in Hc.
      pose proof (process_vin_state w vin s) as Hs.
      destruct (process_vin w vin s) as [[dd|e0] s2] eqn:Hp; simpl in Hs;
        subst s2.
      * destruct (cache_vin w vin dd _) as [[[]|e1] s3] eqn:Hcv;
          [discriminate|].
        apply cache_vin_Raise in Hcv. destruct Hcv as [-> _].
        simpl in Hc. inversion Hc; subst. discriminate.
      * unfold on_ValueError in Hc.
        destruct (ValueError_str e0) eqn:Hv0; inversion Hc; subst.
        congruence.
Qed.

End Cache.

(** ** The properties at the concrete inputs *)

Lemma cache_vin_first_write_wins_witness :
  fst (cache_vin provider_up vin0 other_payload
         (snd (cache_vin provider_up vin0 decoded0 initial)))
  = Raise (SQLAlchemyError "Database transaction failed")
  /\ lookup vin0
       (snd (cache_vin provider_up vin0 other_payload
               (snd (cache_vin provider_up vin0 decoded0 initial))))
     = Some (row_of vin0 decoded0).
Proof.
  destruct (proj2 (cache_vin_first_write_wins sample_repr sample_display)
              provider_up provider_up vin0
              decoded0 other_payload initial
              (conj eq_refl eq_refl) eq_refl eq_refl)
    as [_ [H2 [_ [H4 _]]]].
  exact (conj H2 H4).
Defined.

(** C1 as the claim states it fails: of two inserts under one key the second
    raises, and the lookup then finds the row of the first payload, which is
    not the row of the second. *)
Lemma cache_vin_is_not_an_upsert :
  fst (cache_vin provider_up vin0 other_payload
         (snd (cache_vin provider_up vin0 decoded0 initial)))
  = Raise (SQLAlchemyError "Database transaction failed")
  /\ lookup vin0
       (snd (cache_vin provider_up vin0 other_payload
               (snd (cache_vin provider_up vin0 decoded0 initial))))
     = Some (row_of vin0 decoded0)
  /\ row_of vin0 decoded0 <> row_of vin0 other_payload.
Proof. repeat split. discriminate. Qed.

Lemma cache_check_twice_witness :
  cache_check sample_repr sample_display provider_up vin0 initial
  = (Return (Decoded decoded0), stored0)
  /\ exists d',
       cache_check sample_repr sample_display provider_down vin0 stored0
       = (Return (Decoded d'), stored0)
       /\ VinDecoded.make d' = "MakeValue"
       /\ VinDecoded.model d' = "ModelValue"
       /\ VinDecoded.model_year d' = "2023"
       /\ VinDecoded.body_class d' = "BodyClassValue"
       /\ VinDecoded.cached d' = true.
Proof.
  split; [reflexivity|].
  exact (cache_check_twice sample_repr sample_display provider_up
           provider_down vin0 initial decoded0 stored0
           (conj eq_refl eq_refl) eq_refl eq_refl).
Defined.


Lemma process_vin_invalid_data_witness :
  fst (process_vin sample_repr
         (answering (JDict [("Results", JList [JDict [("Make", JStr "M")]])]))
         vin0 initial)
  = Raise (ValueError (JStr "Invalid VIN data"))
  /\ ValueError_str sample_repr sample_display
       (ValueError (JStr "Invalid VIN data"))
     = Some "Invalid VIN data".
Proof.
  exact (process_vin_invalid_data sample_repr sample_display
           (answering (JDict [("Results", JList [JDict [("Make", JStr "M")]])]))
           vin0 initial _ eq_refl eq_refl eq_refl).
Defined.

Lemma process_vin_error_entry_witness :
  fst (process_vin sample_repr (answering (JDict [("error", JStr "boom")]))
         vin0 initial)
  = Raise (ValueError (JStr "boom"))
  /\ ValueError_str sample_repr sample_display (ValueError (JStr "boom"))
     = Some "boom".
Proof.
  exact (process_vin_error_entry sample_repr sample_display
           (answering (JDict [("error", JStr "boom")])) vin0 initial
           _ "boom" eq_refl eq_refl).
Defined.

Lemma cache_check_hit_no_remote_witness :
  cache_check sample_repr sample_display provider_down vin0 stored0
  = (Return (Decoded (served (row_of vin0 decoded0))), stored0)
  /\ outbound
       (snd (cache_check sample_repr sample_display provider_down vin0 stored0))
     = outbound stored0
  /\ cache_check sample_repr sample_display provider_up vin0 stored0
     = cache_check sample_repr sample_display provider_down vin0 stored0.
Proof.
  destruct (cache_check_hit_no_remote sample_repr sample_display
              provider_down provider_up vin0 stored0 (row_of vin0 decoded0)
              (conj eq_refl eq_refl) eq_refl eq_refl)
    as [H1 [_ [H3 H4]]].
  exact (conj H1 (conj H3 H4)).
Defined.

Lemma cache_check_store_write_fails_witness :
  cache_check sample_repr sample_display storage_down vin0 initial
  = (Raise (SQLAlchemyError "Database transaction failed"),
     log_request (request_url vin0) initial)
  /\ lookup_vin sample_repr sample_display storage_down vin0 initial
     = (Raise (SQLAlchemyError "Database transaction failed"),
        log_request (request_url vin0) initial).
Proof.
  destruct (cache_check_store_write_fails sample_repr sample_display
              storage_down vin0 initial decoded0
              (log_request (request_url vin0) initial)
              (SQLAlchemyError "Database transaction failed")
              (log_request (request_url vin0) initial)
              (conj eq_refl eq_refl) eq_refl eq_refl eq_refl)
    as [_ [H2 [H3 _]]].
  exact (conj H2 H3).
Defined.

Lemma cache_delete_vin_outcome_witness :
  fst (cache_delete_vin provider_up vin0 stored0)
  = Return [("message", "Successfully removed VIN: 1XPWD40X1ED215307.")]
  /\ lookup vin0 (snd (cache_delete_vin provider_up vin0 stored0)) = None
  /\ fst (cache_delete_vin storage_down vin0 stored0)
     = Return [("error", "Failed to delete VIN from cache.");
               ("exception", "disk I/O error")].
Proof.
  destruct (cache_delete_vin_outcome provider_up vin0 stored0
              (conj eq_refl eq_refl))
    as [H _].
  destruct (H eq_refl eq_refl) as [[_ H1] [_ H2]].
  destruct (cache_delete_vin_outcome storage_down vin0 stored0
              (conj eq_refl eq_refl))
    as [_ H'].
  destruct (H' "disk I/O error" (or_intror (conj eq_refl eq_refl)))
    as [H3 _].
  exact (conj (H1 eq_refl) (conj H2 H3)).
Defined.

Lemma cache_export_database_one_record_witness :
  fst (cache_export_database stored0) = Return "vin_cache.parquet"
  /\ read_file "vin_cache.parquet" (snd (cache_export_database stored0))
     = Some {| columns := ["vin"; "make"; "model"; "model_year"; "body_class"];
               records := [["1XPWD40X1ED215307"; "MakeValue"; "ModelValue";
                            "2023"; "BodyClassValue"]] |}.
Proof.
  destruct (cache_export_database_one_record stored0 (row_of vin0 decoded0)
              eq_refl)
    as [H1 _].
  exact (conj H1 eq_refl).
Defined.

Lemma stored_rows_marked_cached_witness :
  VinDecoded.cached decoded0 = false
  /\ lookup vin0 stored0 = Some (row_of vin0 decoded0)
  /\ VinCache.cached (row_of vin0 decoded0) = true.
Proof.
  destruct (proj2 (stored_rows_marked_cached sample_repr sample_display)
              provider_up vin0 initial decoded0 stored0
              (conj eq_refl eq_refl) eq_refl eq_refl)
    as [H1 [H2 [H3 _]]].
  exact (conj H1 (conj H2 H3)).
Defined.

(** ** The further properties at concrete inputs *)

Lemma vin_regex_match_iff_witness :
  vin_regex_match (vin0 ++ newline) = true
  /\ vin_regex_match "INVALIDVIN" = false.
Proof.
  split; [|reflexivity].
  apply (proj2 (vin_regex_match_iff (vin0 ++ newline))).
  exists vin0. repeat split. now right.
Defined.

Lemma cache_check_miss_decodes_witness :
  fst (cache_check sample_repr sample_display provider_up vin0 initial)
  = Return (Decoded decoded0)
  /\ table (snd (cache_check sample_repr sample_display provider_up vin0
                   initial))
     = [row_of vin0 decoded0].
Proof.
  destruct (cache_check_miss_decodes sample_repr sample_display provider_up
              vin0 initial _ _ _ "MakeValue" "ModelValue" "2023"
              "BodyClassValue"
              (conj eq_refl eq_refl) eq_refl eq_refl eq_refl eq_refl eq_refl
              eq_refl eq_refl eq_refl eq_refl eq_refl)
    as [H1 [H2 _]].
  exact (conj H1 H2).
Defined.

Lemma process_vin_TypeError_escapes_witness :
  fst (process_vin sample_repr
         (answering (JDict [("Results", JList [JNull])])) vin0 initial)
  = Raise TypeError
  /\ lookup_vin sample_repr sample_display
       (answering (JDict [("Results", JList [JNull])])) vin0 initial
     = (Raise TypeError, log_request (request_url vin0) initial).
Proof.
  destruct (process_vin_TypeError_escapes sample_repr sample_display
              (answering (JDict [("Results", JList [JNull])])) vin0 initial
              _ eq_refl eq_refl
              (or_intror
                 (ex_intro _ [("Results", JList [JNull])]
                    (conj eq_refl (conj eq_refl eq_refl)))))
    as [H1 [_ H3]].
  exact (conj H1 H3).
Defined.

Lemma process_vin_unusable_results_witness :
  cache_check sample_repr sample_display (answering (JDict [])) vin0 initial
  = (Return (Error "Invalid VIN data"),
     log_request (request_url vin0) initial).
Proof.
  exact (proj2 (process_vin_unusable_results sample_repr sample_display
                  (answering (JDict [])) vin0 initial []
                  eq_refl eq_refl eq_refl eq_refl)).
Defined.

Lemma cache_check_transport_failure_witness :
  cache_check sample_repr sample_display provider_down vin0 initial
  = (Return
       (Error "An error occurred during the request: connection refused"),
     log_request (request_url vin0) initial).
Proof.
  exact (proj1 (cache_check_transport_failure sample_repr sample_display
                  provider_down vin0 initial eq_refl)
           "connection refused" eq_refl).
Defined.

Lemma cache_check_requests_witness :
  outbound
    (snd (cache_check sample_repr sample_display provider_down vin0 stored0))
  = outbound stored0
  /\ outbound
       (snd (cache_check sample_repr sample_display storage_down vin0
               initial))
     = [request_url vin0].
Proof.
  destruct (cache_check_requests sample_repr sample_display provider_down
              vin0 stored0) as [H1 _].
  destruct (cache_check_requests sample_repr sample_display storage_down
              vin0 initial) as [_ [H2 _]].
  exact (conj (H1 (row_of vin0 decoded0) eq_refl) (H2 eq_refl)).
Defined.

Lemma lookup_vin_raises_only_witness :
  lookup_vin sample_repr sample_display storage_down vin0 initial
  = (Raise (SQLAlchemyError "Database transaction failed"),
     log_request (request_url vin0) initial)
  /\ (SQLAlchemyError "Database transaction failed" = TypeError
      \/ SQLAlchemyError "Database transaction failed"
         = SQLAlchemyError "Database transaction failed")
  /\ exists response,
       lookup_vin sample_repr sample_display provider_down vin0 stored0
       = (Return response, stored0).
Proof.
  split; [reflexivity|]. split.
  - exact (proj2 (lookup_vin_raises_only sample_repr sample_display
                    storage_down vin0 initial)
             eq_refl (SQLAlchemyError "Database transaction failed")
             (log_request (request_url vin0) initial) eq_refl).
  - exact (proj1 (lookup_vin_raises_only sample_repr sample_display
                    provider_down vin0 stored0)
             (row_of vin0 decoded0) eq_refl).
Defined.

Lemma cache_check_invalid_vin_witness :
  same_store initial
    (snd (cache_check sample_repr sample_display provider_up "INVALIDVIN"
            initial)).
Proof.
  exact (proj2 (cache_check_invalid_vin sample_repr sample_display
                  provider_up "INVALIDVIN" initial eq_refl)).
Defined.

Lemma served_store_is_served_witness :
  cache_check sample_repr sample_display provider_down vin0 stored0
  = (Return (Decoded (served (row_of vin0 decoded0))), stored0).
Proof.
  exact (proj2 (served_store_is_served sample_repr sample_display stored0
                  (served_next sample_repr sample_display initial stored0
                     (served_initial sample_repr sample_display)
                     (served_cache_check sample_repr sample_display
                        provider_up vin0 initial)))
           provider_down vin0 (row_of vin0 decoded0) eq_refl).
Defined.

Lemma cache_check_keeps_rows_witness :
  lookup vin0
    (snd (cache_check sample_repr sample_display provider_up
            "2HGES16575H591234" stored0))
  = Some (row_of vin0 decoded0).
Proof.
  exact (proj1 (cache_check_keeps_rows sample_repr sample_display provider_up
                  "2HGES16575H591234" stored0 (conj eq_refl eq_refl))
           vin0 (row_of vin0 decoded0) eq_refl).
Defined.

Lemma cache_vin_keeps_rows_witness :
  lookup vin0 (snd (cache_vin provider_up vin0 other_payload stored0))
  = Some (row_of vin0 decoded0).
Proof.
  exact (proj1 (cache_vin_keeps_rows provider_up vin0 other_payload stored0
                  (conj eq_refl eq_refl))
           vin0 (row_of vin0 decoded0) eq_refl).
Defined.

Lemma cache_vin_then_delete_witness :
  cache_delete_vin provider_up vin0
    (snd (cache_vin provider_up vin0 decoded0 initial))
  = (Return [("message", "Successfully removed VIN: " ++ vin0 ++ ".")],
     initial).
Proof.
  exact (cache_vin_then_delete provider_up provider_up vin0 decoded0 initial
           (conj eq_refl eq_refl) eq_refl eq_refl eq_refl eq_refl).
Defined.

Lemma cache_delete_vin_twice_witness :
  cache_delete_vin provider_up vin0
    (snd (cache_delete_vin provider_up vin0 stored0))
  = (Return [("message",
              "No record found with VIN: " ++ vin0 ++ ". No deletion.")],
     snd (cache_delete_vin provider_up vin0 stored0)).
Proof.
  exact (cache_delete_vin_twice provider_up provider_up vin0 stored0
           (conj eq_refl eq_refl) eq_refl eq_refl eq_refl eq_refl).
Defined.

Lemma cache_delete_vin_keeps_others_witness :
  lookup vin0
    (snd (cache_delete_vin provider_up "2HGES16575H591234" stored0))
  = Some (row_of vin0 decoded0).
Proof.
  exact (proj1 (cache_delete_vin_keeps_others provider_up
                  "2HGES16575H591234" stored0 (conj eq_refl eq_refl))
           vin0 ltac:(discriminate)).
Defined.

Lemma cache_export_database_all_rows_witness :
  read_file "vin_cache.parquet" (snd (cache_export_database stored0))
  = Some {| columns := ["vin"; "make"; "model"; "model_year"; "body_class"];
            records := [row_values (row_of vin0 decoded0)] |}.
Proof.
  exact (proj1 (proj2 (cache_export_database_all_rows stored0
                         ltac:(discriminate)))).
Defined.

Lemma cache_check_Decoded_witness :
  VinDecoded.vin decoded0 = vin0 /\ vin_regex_match vin0 = true.
Proof.
  destruct (cache_check_Decoded sample_repr sample_display provider_up vin0
              initial decoded0 stored0 eq_refl)
    as [H1 [H2 _]].
  exact (conj H1 H2).
Defined.

Lemma Error_means_nothing_written_witness :
  same_store initial (log_request (request_url vin0) initial).
Proof.
  exact (Error_means_nothing_written sample_repr sample_display provider_down
           vin0 initial
           "An error occurred during the request: connection refused"
           (log_request (request_url vin0) initial)
           (or_introl eq_refl)).
Defined.

(** ** Where the code departs from its contract

    The answer [{"Results": [null]}]: its first result has none of the four
    fields.  [result['Make']] is then taken of [None], which raises
    [TypeError]; the clause [except (KeyError, IndexError)] of [process_vin]
    does not catch it, and [cache_check] and [lookup_vin] catch [ValueError]
    only. *)

(** C4 at this answer: [process_vin] raises [TypeError], which is no
    [ValueError] and has no message ["Invalid VIN data"]. *)
Lemma process_vin_null_result :
  invalid_results [("Results", JList [JNull])] = false
  /\ unsubscriptable_results [("Results", JList [JNull])] = true
  /\ fst (process_vin sample_repr
            (answering (JDict [("Results", JList [JNull])])) vin0 initial)
     = Raise TypeError
  /\ ValueError_str sample_repr sample_display TypeError = None.
Proof. repeat split. Qed.

(** C3 at this answer: the lookup misses, the decode fails, and
    [cache_check] returns no [Error]: the [TypeError] leaves it, and leaves
    [lookup_vin]; only the request has been logged. *)
Lemma cache_check_null_result :
  lookup vin0 initial = None
  /\ cache_check sample_repr sample_display
       (answering (JDict [("Results", JList [JNull])])) vin0 initial
     = (Raise TypeError, log_request (request_url vin0) initial)
  /\ lookup_vin sample_repr sample_display
       (answering (JDict [("Results", JList [JNull])])) vin0 initial
     = (Raise TypeError, log_request (request_url vin0) initial).
Proof. repeat split. Qed.
